(** * Minecraft Coordinates Manager: the data layer of
      [minecraft_coords_manager.py], embedded and verified.

    The program keeps one Python dict, [self.data], that maps a profile
    name to [{"seed": str, "coords": [{"name", "x", "y", "z"}, ...]}],
    and rewrites it to a JSON file after every change.  The handlers of
    the Tk widgets are embedded as functions from the widget inputs (the
    listbox and tree selections, the entry texts, the answers given to
    the dialogs) and the dict to the new dict, the message boxes shown,
    the files written and the exception raised, if any.

    Conventions of the embedding:
    - a Python [str] is a [str], the sequence of its code points, each
      an [N]; [str.isspace], [str.isdigit] and the decimal digits that
      [int] and [float] read are those of the Unicode character
      database 14.0, which CPython 3.11 carries; [str.lower] is a
      parameter of the one function that calls it, and what is proved
      holds for whatever it is;
    - a Python [int] is a [Z], and [int(text)] refuses a text of more
      than 4300 digits, the limit that the interpreter sets unless told
      otherwise; a Python [float] is a binary64 value of [SpecFloat],
      and [float(text)] rounds the decimal text to the nearest binary64
      value, ties to even;
    - a Python [dict] with [str] keys is a [gmap str _]: equality of
      maps is then the equality [==] of dicts (a not-a-number apart,
      which Python holds unequal to itself); the order in which a dict
      holds its keys, that of their insertion, is not part of a [gmap],
      and is given apart where the program shows it;
    - a list is a [list], indexed with [!!];
    - the files are a state: what a handler writes is in the events it
      leaves, and [after] gives the files once the events have taken
      place.  A path names a regular file or nothing, and paths are
      compared as texts.  [json.dump] and [json.load] are taken from
      the documentation of the library: a text that [json.dump] has
      written to its end is read back by [json.load] as the value it
      was written from. *)

From Stdlib Require Import ZArith NArith List Bool Lia.
From Stdlib Require Import Strings.Byte Floats.SpecFloat Sorting.Sorted.
From stdpp Require Import base option list gmap fin_maps.

(** ** Python strings *)

(** A [str]: its code points, first to last. *)
Inductive str : Type :=
  | EmptyStr
  | Str (c : N) (s : str).

(** Literals: ["abc"] is the [str] of three ASCII characters, and
    ["a"%chr] the code point of one. *)
Module Literal.

Fixpoint of_bytes (l : list Byte.byte) : option str :=
  match l with
  | nil => Some EmptyStr
  | b :: r =>
      if (Byte.to_N b <? 128)%N then
        match of_bytes r with
        | Some s => Some (Str (Byte.to_N b) s)
        | None => None
        end
      else None
  end.

Fixpoint to_bytes (s : str) : option (list Byte.byte) :=
  match s with
  | EmptyStr => Some nil
  | Str c r =>
      if (c <? 128)%N then
        match Byte.of_N c, to_bytes r with
        | Some b, Some l => Some (b :: l)
        | _, _ => None
        end
      else None
  end.

Definition chr_of_bytes (l : list Byte.byte) : option N :=
  match l with
  | [b] => if (Byte.to_N b <? 128)%N then Some (Byte.to_N b) else None
  | _ => None
  end.

Definition chr_to_bytes (c : N) : option (list Byte.byte) := None.

End Literal.

Declare Scope str_scope.
Delimit Scope str_scope with str.
Bind Scope str_scope with str.
String Notation str Literal.of_bytes Literal.to_bytes : str_scope.
Declare Scope chr_scope.
Delimit Scope chr_scope with chr.
String Notation N Literal.chr_of_bytes Literal.chr_to_bytes : chr_scope.
Local Open Scope str_scope.

Module PyStr.

Fixpoint to_list (s : str) : list N :=
  match s with
  | EmptyStr => []
  | Str c r => c :: to_list r
  end.

Fixpoint of_list (l : list N) : str :=
  match l with
  | [] => EmptyStr
  | c :: r => Str c (of_list r)
  end.

#[global] Instance str_eq_dec : EqDecision str.
Proof. solve_decision. Defined.

#[global] Instance str_countable : Countable str :=
  inj_countable' to_list of_list
    (fix inverse (s : str) : of_list (to_list s) = s :=
       match s with
       | EmptyStr => eq_refl
       | Str c r => f_equal (Str c) (inverse r)
       end).

(** [a + b] *)
Fixpoint append (a b : str) : str :=
  match a with
  | EmptyStr => b
  | Str c r => Str c (append r b)
  end.

(** [len(s)] *)
Fixpoint len (s : str) : nat :=
  match s with
  | EmptyStr => 0
  | Str _ r => S (len r)
  end.

(** The code point at position [k]. *)
Fixpoint get (k : nat) (s : str) : option N :=
  match s, k with
  | EmptyStr, _ => None
  | Str c _, O => Some c
  | Str _ r, S k => get k r
  end.

Definition between (lo hi c : N) : bool := ((lo <=? c) && (c <=? hi))%N.

(** [c] lies in one of the ranges, each given by its first and its
    last code point. *)
Definition in_ranges (ranges : list (N * N)) (c : N) : bool :=
  existsb (fun r => between (fst r) (snd r) c) ranges.

(** The whitespace of [str.isspace] and [str.strip]. *)
Definition whitespace : list (N * N) :=
  [(0x0009, 0x000D); (0x001C, 0x0020); (0x0085, 0x0085);
   (0x00A0, 0x00A0); (0x1680, 0x1680); (0x2000, 0x200A);
   (0x2028, 0x2029); (0x202F, 0x202F); (0x205F, 0x205F);
   (0x3000, 0x3000)]%N.

(** [c.isspace()] *)
Definition isspace_char (c : N) : bool := in_ranges whitespace c.

(** The digit zero of every run of decimal digits (general category
    Nd): the ten digits of a run stand in a row, zero first. *)
Definition decimal_zeros : list N :=
  [0x0030; 0x0660; 0x06F0; 0x07C0; 0x0966; 0x09E6; 0x0A66; 0x0AE6;
   0x0B66; 0x0BE6; 0x0C66; 0x0CE6; 0x0D66; 0x0DE6; 0x0E50; 0x0ED0;
   0x0F20; 0x1040; 0x1090; 0x17E0; 0x1810; 0x1946; 0x19D0; 0x1A80;
   0x1A90; 0x1B50; 0x1BB0; 0x1C40; 0x1C50; 0xA620; 0xA8D0; 0xA900;
   0xA9D0; 0xA9F0; 0xAA50; 0xABF0; 0xFF10; 0x104A0; 0x10D30; 0x11066;
   0x110F0; 0x11136; 0x111D0; 0x112F0; 0x11450; 0x114D0; 0x11650;
   0x116C0; 0x11730; 0x118E0; 0x11950; 0x11C50; 0x11D50; 0x11DA0;
   0x16A60; 0x16AC0; 0x16B50; 0x1D7CE; 0x1D7D8; 0x1D7E2; 0x1D7EC;
   0x1D7F6; 0x1E140; 0x1E2F0; 0x1E950; 0x1FBF0]%N.

(** The value of [c] as a decimal digit, if it is one: the digits that
    [int] and [float] read, in whatever script. *)
Definition to_decimal (c : N) : option N :=
  match find (fun z => (z <=? c) && (c <? z + 10))%N decimal_zeros with
  | Some z => Some (c - z)%N
  | None => None
  end.

(** [c.isdecimal()] *)
Definition is_decimal (c : N) : bool :=
  match to_decimal c with Some _ => true | None => false end.

(** The characters that are digits to [isdigit] without being decimal
    digits: superscripts, subscripts, circled digits and the like,
    which [int] and [float] refuse. *)
Definition other_digits : list (N * N) :=
  [(0x00B2, 0x00B3); (0x00B9, 0x00B9); (0x1369, 0x1371);
   (0x19DA, 0x19DA); (0x2070, 0x2070); (0x2074, 0x2079);
   (0x2080, 0x2089); (0x2460, 0x2468); (0x2474, 0x247C);
   (0x2488, 0x2490); (0x24EA, 0x24EA); (0x24F5, 0x24FD);
   (0x24FF, 0x24FF); (0x2776, 0x277E); (0x2780, 0x2788);
   (0x278A, 0x2792); (0x10A40, 0x10A43); (0x10E60, 0x10E68);
   (0x11052, 0x1105A); (0x1F100, 0x1F10A)]%N.

(** [c.isdigit()] *)
Definition isdigit_char (c : N) : bool :=
  is_decimal c || in_ranges other_digits c.

Fixpoint all_chars (p : N -> bool) (s : str) : bool :=
  match s with
  | EmptyStr => true
  | Str c r => p c && all_chars p r
  end.

Definition nonempty (s : str) : bool :=
  match s with EmptyStr => false | Str _ _ => true end.

(** [s.isdigit()]: at least one character, and all of them digits. *)
Definition isdigit (s : str) : bool :=
  nonempty s && all_chars isdigit_char s.

(** [s] without the characters at its front that [p] holds of. *)
Fixpoint lstrip_by (p : N -> bool) (s : str) : str :=
  match s with
  | EmptyStr => EmptyStr
  | Str c r => if p c then lstrip_by p r else s
  end.

(** [s] without the characters at its end that [p] holds of. *)
Fixpoint rstrip_by (p : N -> bool) (s : str) : str :=
  match s with
  | EmptyStr => EmptyStr
  | Str c r =>
      match rstrip_by p r with
      | EmptyStr => if p c then EmptyStr else Str c EmptyStr
      | r' => Str c r'
      end
  end.

(** [s.strip()] *)
Definition strip (s : str) : str :=
  lstrip_by isspace_char (rstrip_by isspace_char s).

(** [s.startswith("-")] *)
Definition startswith_minus (s : str) : bool :=
  match s with
  | Str c _ => (c =? "-"%chr)%N
  | EmptyStr => false
  end.

(** [s[1:]] *)
Definition tail (s : str) : str :=
  match s with
  | Str _ r => r
  | EmptyStr => EmptyStr
  end.

(** [a <= b] on [str]: lexicographic on code points. *)
Fixpoint leb (a b : str) : bool :=
  match a, b with
  | EmptyStr, _ => true
  | Str _ _, EmptyStr => false
  | Str x a', Str y b' =>
      if (x <? y)%N then true
      else if (y <? x)%N then false
      else leb a' b'
  end.

End PyStr.

Infix "+:+" := PyStr.append (at level 60, right associativity) : str_scope.

(** ** [int(text)] and [float(text)] *)

Module PyNum.
Import PyStr.

(** The whitespace that [int] and [float] skip at both ends of the
    ASCII text they parse: space, TAB, LF, VT, FF and CR. *)
Definition is_ascii_space (c : N) : bool :=
  between 9 13 c || (c =? " "%chr)%N.

Definition is_ascii_digit (c : N) : bool := between "0"%chr "9"%chr c.

(** What [int] and [float] do to a [str] before they parse it: a
    character below 127 stays, a whitespace character becomes a space, a
    decimal digit of any script becomes the ASCII digit of its value, and
    at the first character that is none of these the text ends with a
    question mark in its place. *)
Fixpoint to_ascii (s : str) : str :=
  match s with
  | EmptyStr => EmptyStr
  | Str c r =>
      if (c <? 127)%N then Str c (to_ascii r)
      else if isspace_char c then Str " "%chr (to_ascii r)
      else
        match to_decimal c with
        | Some d => Str ("0"%chr + d)%N (to_ascii r)
        | None => Str "?"%chr EmptyStr
        end
  end.

Definition ascii_strip (s : str) : str :=
  lstrip_by is_ascii_space (rstrip_by is_ascii_space s).

Definition digit_value (c : N) : Z := Z.of_N c - 48.

(** Value of a text of ASCII digits, most significant first. *)
Fixpoint decimal_value (acc : Z) (s : str) : Z :=
  match s with
  | EmptyStr => acc
  | Str c r => decimal_value (10 * acc + digit_value c) r
  end.

(** The longest prefix that is a [digitpart],
    [digit (["_"] digit)*], with its underscores dropped, and what
    follows it.  An underscore is read only between two digits. *)
Fixpoint digitpart (s : str) : str * str :=
  match s with
  | EmptyStr => (EmptyStr, EmptyStr)
  | Str c r =>
      if is_ascii_digit c then
        match r with
        | Str u r1 =>
            if (u =? "_"%chr)%N then
              match r1 with
              | Str c1 _ =>
                  if is_ascii_digit c1
                  then let (ds, rest) := digitpart r1 in (Str c ds, rest)
                  else (Str c EmptyStr, r)
              | EmptyStr => (Str c EmptyStr, r)
              end
            else let (ds, rest) := digitpart r in (Str c ds, rest)
        | EmptyStr => (Str c EmptyStr, EmptyStr)
        end
      else (EmptyStr, s)
  end.

(** An optional sign: [true] for a minus. *)
Definition sign (s : str) : bool * str :=
  match s with
  | Str c r =>
      if (c =? "-"%chr)%N then (true, r)
      else if (c =? "+"%chr)%N then (false, r)
      else (false, s)
  | EmptyStr => (false, s)
  end.

(** [sys.int_info.default_max_str_digits]: the number of digits from
    which on [int] refuses a text. *)
Definition int_max_str_digits : Z := 4300.

(** [int(s)] in base ten on a [str]: surrounding whitespace, a sign,
    one [digitpart] of at most [int_max_str_digits] digits and nothing
    else; [None] is [ValueError]. *)
Definition py_int (s : str) : option Z :=
  let (neg, body) := sign (ascii_strip (to_ascii s)) in
  match digitpart body with
  | (Str c ds, EmptyStr) =>
      if (Z.of_nat (len (Str c ds)) <=? int_max_str_digits)%Z then
        let n := decimal_value 0 (Str c ds) in
        Some (if neg then (- n)%Z else n)
      else None
  | _ => None
  end.

(** Binary64. *)
Definition prec : Z := 53.
Definition emax : Z := 1024.

(** The binary64 value nearest to [(-1)^neg * m * 10^e]. *)
Definition decimal_to_double (neg : bool) (m e : Z) : spec_float :=
  match m with
  | Zpos p =>
      if (0 <=? e)%Z
      then binary_normalize prec emax
             (if neg then Z.neg (p * Z.to_pos (10 ^ e))
              else Z.pos (p * Z.to_pos (10 ^ e))) 0 false
      else SFdiv prec emax (S754_finite neg p 0)
             (S754_finite false (Z.to_pos (10 ^ (- e))) 0)
  | _ => S754_zero neg
  end.

Definition ascii_lower (c : N) : N :=
  if between "A"%chr "Z"%chr c then (c + 32)%N else c.

Fixpoint ascii_lower_str (s : str) : str :=
  match s with
  | EmptyStr => EmptyStr
  | Str c r => Str (ascii_lower c) (ascii_lower_str r)
  end.

(** ["inf"], ["infinity"] and ["nan"], in any case. *)
Definition inf_or_nan (neg : bool) (s : str) : option spec_float :=
  let l := ascii_lower_str s in
  if bool_decide (l = "inf") || bool_decide (l = "infinity")
  then Some (S754_infinity neg)
  else if bool_decide (l = "nan") then Some S754_nan
  else None.

(** The exponent of a [floatnumber]: nothing, or [e] or [E], a sign
    and a [digitpart], up to the end of the text. *)
Definition exponent (s : str) : option Z :=
  match s with
  | EmptyStr => Some 0%Z
  | Str c r =>
      if (c =? "e"%chr)%N || (c =? "E"%chr)%N then
        let (neg, body) := sign r in
        match digitpart body with
        | (Str d ds, EmptyStr) =>
            let n := decimal_value 0 (Str d ds) in
            Some (if neg then (- n)%Z else n)
        | _ => None
        end
      else None
  end.

(** [number [exponent]] with
    [number ::= [digitpart] "." digitpart | digitpart ["."]]. *)
Definition floatnumber (neg : bool) (s : str) : option spec_float :=
  let (ip, r1) := digitpart s in
  let (fp, r2) :=
    match r1 with
    | Str c r => if (c =? "."%chr)%N then digitpart r
                 else (EmptyStr, r1)
    | EmptyStr => (EmptyStr, r1)
    end in
  if nonempty ip || nonempty fp then
    match exponent r2 with
    | Some e =>
        Some (decimal_to_double neg (decimal_value 0 (ip +:+ fp))
                (e - Z.of_nat (len fp)))
    | None => None
    end
  else None.

(** [float(s)] on a [str]; [None] is [ValueError]. *)
Definition py_float (s : str) : option spec_float :=
  let (neg, body) := sign (ascii_strip (to_ascii s)) in
  match floatnumber neg body with
  | Some f => Some f
  | None => inf_or_nan neg body
  end.

End PyNum.

(** ** Python values, as [json.load] builds them *)

#[warning="-register-all"]
Inductive pyval : Type :=
  | PyNone
  | PyBool (b : bool)
  | PyInt (n : Z)
  | PyFloat (f : spec_float)
  | PyStr (s : str)
  | PyList (l : list pyval)
  | PyDict (d : gmap str pyval).

(** The exceptions that the operations below raise. *)
Inductive pyexn : Type :=
  | KeyError
  | TypeError
  | AttributeError
  | IndexError.

(** A value or a raised exception. *)
Inductive result (A : Type) : Type :=
  | Ok (a : A)
  | Raise (e : pyexn).
Arguments Ok {A} a.
Arguments Raise {A} e.

#[global] Instance result_ret : MRet result := fun A a => Ok a.
#[global] Instance result_bind : MBind result :=
  fun A B f m => match m with Ok a => f a | Raise e => Raise e end.

Module Py.

(** [v[k]] for a [str] key [k]. *)
Definition getitem (v : pyval) (k : str) : result pyval :=
  match v with
  | PyDict d =>
      match d !! k with
      | Some x => Ok x
      | None => Raise KeyError
      end
  | _ => Raise TypeError
  end.

(** [v[k] = x] for a [str] key [k]; the updated [v]. *)
Definition setitem (v : pyval) (k : str) (x : pyval) : result pyval :=
  match v with
  | PyDict d => Ok (PyDict (<[k := x]> d))
  | _ => Raise TypeError
  end.

(** [v.append(x)]; the updated [v]. *)
Definition append (v x : pyval) : result pyval :=
  match v with
  | PyList l => Ok (PyList (l ++ [x]))
  | _ => Raise AttributeError
  end.

(** [len(v)] *)
Definition len (v : pyval) : result Z :=
  match v with
  | PyList l => Ok (Z.of_nat (length l))
  | PyStr s => Ok (Z.of_nat (PyStr.len s))
  | PyDict d => Ok (Z.of_nat (size d))
  | _ => Raise TypeError
  end.

(** Position in a sequence of length [n] that the index [i] denotes:
    a negative index counts from the end. *)
Definition position (n : nat) (i : Z) : option nat :=
  if (0 <=? i)%Z then
    if (i <? Z.of_nat n)%Z then Some (Z.to_nat i) else None
  else
    if (0 <=? i + Z.of_nat n)%Z then Some (Z.to_nat (i + Z.of_nat n))
    else None.

(** [v[i]] for an [int] index [i]; the keys of a dict are [str], so
    an [int] is never one of them. *)
Definition index (v : pyval) (i : Z) : result pyval :=
  match v with
  | PyList l =>
      match position (length l) i ≫= (l !!.) with
      | Some x => Ok x
      | None => Raise IndexError
      end
  | PyStr s =>
      match position (PyStr.len s) i ≫= (fun k => PyStr.get k s) with
      | Some c => Ok (PyStr (Str c EmptyStr))
      | None => Raise IndexError
      end
  | PyDict _ => Raise KeyError
  | _ => Raise TypeError
  end.

(** [v.get(k)] *)
Definition get (v : pyval) (k : str) : result pyval :=
  match v with
  | PyDict d => Ok (default PyNone (d !! k))
  | _ => Raise AttributeError
  end.

(** [v.pop(i)] for an [int] index [i]; the updated [v]. *)
Definition pop (v : pyval) (i : Z) : result pyval :=
  match v with
  | PyList l =>
      match position (length l) i with
      | Some k => Ok (PyList (delete k l))
      | None => Raise IndexError
      end
  | PyDict _ => Raise KeyError
  | _ => Raise AttributeError
  end.

(** [v.get(k, d)] *)
Definition get_default (v : pyval) (k : str) (d : pyval) : result pyval :=
  match v with
  | PyDict m => Ok (default d (m !! k))
  | _ => Raise AttributeError
  end.

(** The items that [for c in v] goes through: the elements of a list,
    the characters of a text, the keys of a dict (in the order of the
    dict in Python, in the order of [map_to_list] here; the one loop
    over such items, that of [_refresh_coords_tree], stops at the first
    of them, whichever it is). *)
Definition iter (v : pyval) : result (list pyval) :=
  match v with
  | PyList l => Ok l
  | PyStr s => Ok ((fun c => PyStr (Str c EmptyStr)) <$> PyStr.to_list s)
  | PyDict m => Ok (PyStr <$> (map_to_list m).*1)
  | _ => Raise TypeError
  end.

(** [not s] for the [str] or [None] that a dialog or a selection
    gives. *)
Definition not_ (s : option str) : bool :=
  match s with
  | Some s => negb (PyStr.nonempty s)
  | None => true
  end.

(** [bool(d)] on a dict: it has an entry. *)
Definition nonempty_dict (d : gmap str pyval) : bool :=
  negb (size d =? 0)%nat.

(** [ks] is [list(d.keys())] for some order of insertion of the keys
    of [d]: it holds every key of [d] once, and nothing else. *)
Definition keys (d : gmap str pyval) (ks : list str) : Prop :=
  ks ≡ₚ (map_to_list d).*1.

Section Sorted.
(** [str.lower] *)
Variable lower : str -> str.

(** [sorted(l, key=lambda s: s.lower())]: the stable sort. *)
Fixpoint insert_by_lower (x : str) (l : list str) : list str :=
  match l with
  | [] => [x]
  | h :: t =>
      if PyStr.leb (lower x) (lower h) then x :: h :: t
      else h :: insert_by_lower x t
  end.

Fixpoint sorted_by_lower (l : list str) : list str :=
  match l with
  | [] => []
  | x :: t => insert_by_lower x (sorted_by_lower t)
  end.

(** [a.lower() <= b.lower()]: [a] may stand before [b] in a list sorted
    by [key=lambda s: s.lower()]. *)
Definition lower_le (a b : str) : Prop :=
  PyStr.leb (lower a) (lower b) = true.

End Sorted.

End Py.

(** ** What the handlers do to the outside *)

(** The message boxes shown and what is done to the files:
    [json_dump data path] is [open(path, "w")] and a [json.dump] of
    [data] that comes to its end; [truncated path cut] is
    [open(path, "w")], which empties the file, and a [json.dump] that
    raises before its end, so that the file is left with a text that is
    cut short, on which [json.load] raises the exception of text
    [cut]. *)
Inductive event : Type :=
  | showinfo (title message : str)
  | showwarning (title message : str)
  | showerror (title message : str)
  | json_dump (data : gmap str pyval) (path : str)
  | truncated (path cut : str).

(** What reading a file gives: [open] or [json.load] raises an
    exception whose text is [why], or [json.load] returns a value. *)
Inductive read : Type :=
  | ReadError (why : str)
  | ReadJson (v : pyval).

(** What writing a dict to a file gives: the text is written to its
    end; or [open] raises an exception whose text is [why], and the file
    is as it was; or [open] empties the file and [json.dump] raises an
    exception whose text is [why], and what is left of the file is read
    as [ReadError cut]. *)
Inductive write : Type :=
  | Written
  | OpenError (why : str)
  | DumpError (why cut : str).

(** The files: whether a path exists, what reading it gives, and what
    writing a dict to it gives, which depends on the path (a directory
    that is missing or read-only, a full disk) and on the dict (a text
    with half of a surrogate pair has no UTF-8 encoding). *)
Record files : Type := Files {
  path_exists : str -> bool;
  open_json_load : str -> read;
  open_json_dump : gmap str pyval -> str -> write
}.

(** How a handler ends: having done what it is for; having given up, at
    an early [return] or on an exception that it catches and reports; or
    with an exception that it does not catch. *)
Inductive exit : Type :=
  | Completed
  | Returned
  | Raised (e : pyexn).

Record outcome : Type := Outcome {
  out_data : gmap str pyval;
  out_events : list event;
  out_exit : exit
}.

Definition nl : str := Str 10 EmptyStr.

Definition DATA_FILENAME : str := "cords-data.json".




(** ** The storage functions *)

Definition load_data (fs : files) (path : str)
  : gmap str pyval * list event :=
  let warn (e : str) :=
    showwarning "Load error"
      ("Failed to load " +:+ path +:+ ":" +:+ nl +:+ e +:+ nl
       +:+ "Starting with empty data.") in
  if path_exists fs path then
    match open_json_load fs path with
    | ReadJson (PyDict data) => (data, [])
    | ReadJson _ => (∅, [warn "Top-level JSON not a dict"])
    | ReadError e => (∅, [warn e])
    end
  else (∅, []).

Definition save_data (fs : files) (data : gmap str pyval) (path : str)
  : list event :=
  let error (e : str) :=
    showerror "Save error" ("Failed to save data:" +:+ nl +:+ e) in
  match open_json_dump fs data path with
  | Written => [json_dump data path]
  | OpenError e => [error e]
  | DumpError e cut => [truncated path cut; error e]
  end.

(** ** What the window shows *)

(** A row of the coordinates tree: the identifier it carries, which is
    [str(idx)] in the source, and the values of its four columns. *)
Record row : Type := Row {
  row_iid : nat;
  row_name : pyval;
  row_x : pyval;
  row_y : pyval;
  row_z : pyval
}.

(** The right panel: [profile_title_var], [seed_var] and the rows of
    [coords_tree]. *)
Record display : Type := Display {
  shown_title : str;
  shown_seed : pyval;
  shown_rows : list row
}.

(** The files that a list of events writes to their end, with what is
    written. *)
Definition dumps (events : list event)
  : list (gmap str pyval * str) :=
  omap (fun e => match e with
                 | json_dump data path => Some (data, path)
                 | _ => None
                 end) events.

(** The files that a list of events opens for writing, written to
    their end or not. *)
Definition touched (events : list event) : list str :=
  omap (fun e => match e with
                 | json_dump _ path => Some path
                 | truncated path _ => Some path
                 | _ => None
                 end) events.

(** How a handler ends whose last call is a refresh of the tree that
    raises [e], or nothing. *)
Definition ends (e : option pyexn) : exit :=
  match e with
  | Some e => Raised e
  | None => Completed
  end.

(** The handler saves the dict it leaves: the first thing it does to
    the outside is [save_data] on that dict and the data file, and it
    opens no other file for writing. *)
Definition saves (fs : files) (o : outcome) : Prop :=
  exists rest,
    out_events o = save_data fs (out_data o) DATA_FILENAME ++ rest
    /\ touched rest = [].

(** The handler leaves the dict and the files as they were. *)
Definition leaves (data : gmap str pyval) (o : outcome) : Prop :=
  out_data o = data /\ touched (out_events o) = [].


(** ** The handlers of [CoordManagerApp] *)

Module CoordManagerApp.
Import PyStr PyNum.

Section Handlers.
Variable fs : files.
(** [str.lower] *)
Variable lower : str -> str.

(** [self.data_path] *)
Definition data_path : str := DATA_FILENAME.

(** [self.data = load_data(self.data_path)]: the dict the application
    starts with. *)
Definition __init__ : gmap str pyval * list event :=
  load_data fs data_path.

(** The names shown in the listbox, in order:
    [sorted(self.data.keys(), key=lambda s: s.lower())], where [keys] is
    [self.data.keys()].  The sort is stable: names that agree once in
    lower case stand in the order of [keys]. *)
Definition _refresh_profile_listbox (keys : list str) : list str :=
  Py.sorted_by_lower lower keys.

(** [{"seed": "", "coords": []}] *)
Definition new_profile : pyval :=
  PyDict (<["seed" := PyStr ""]> (<["coords" := PyList []]> ∅)).

(** [name] is what the dialog returned: [None] when cancelled. *)
Definition add_profile (name : option str) (data : gmap str pyval)
  : outcome :=
  if Py.not_ name then Outcome data [] Returned
  else
    let name := strip (default "" name) in
    if decide (is_Some (data !! name)) then
      Outcome data [showerror "Error" "Profile already exists."] Returned
    else
      let data := <[name := new_profile]> data in
      Outcome data (save_data fs data data_path) Completed.

(** [sel] is the selected profile, [confirm] the answer to the
    question, if it is asked. *)
Definition delete_profile (sel : option str) (confirm : bool)
    (data : gmap str pyval) : outcome :=
  if Py.not_ sel then
    Outcome data
      [showinfo "No selection" "Select a profile to delete."] Returned
  else if negb confirm then Outcome data [] Returned
  else
    let sel := default "" sel in
    match data !! sel with
    | None => Outcome data [] (Raised KeyError)
    | Some _ =>
        let data := delete sel data in
        Outcome data (save_data fs data data_path) Completed
    end.

(** The title, the seed entry and the tree, emptied. *)
Definition clear_profile_display : display :=
  Display "(no profile selected)" (PyStr "") [].

(** The rows that the loop of [_refresh_coords_tree] inserts for the
    items from position [idx] on, and the exception that stops it, if
    any: [c.get] is missing on an item that is not a dict. *)
Fixpoint tree_rows (idx : nat) (coords : list pyval)
  : list row * option pyexn :=
  match coords with
  | [] => ([], None)
  | PyDict c :: coords =>
      let (rows, e) := tree_rows (S idx) coords in
      (Row idx (default (PyStr "") (c !! "name"))
         (default (PyStr "") (c !! "x"))
         (default (PyStr "") (c !! "y"))
         (default (PyStr "") (c !! "z")) :: rows, e)
  | _ :: _ => ([], Some AttributeError)
  end.

(** The rows of the tree after the refresh, which empties it first,
    and the exception raised, if any. *)
Definition _refresh_coords_tree (profile_name : str)
    (data : gmap str pyval) : list row * option pyexn :=
  match
    coords ← Py.get_default (default (PyDict ∅) (data !! profile_name))
                "coords" (PyList []);
    Py.iter coords
  with
  | Raise e => ([], Some e)
  | Ok coords => tree_rows 0 coords
  end.

(** [profile] is the selected profile, [shown] what the panel shows
    before; the result is what it shows after, and the exception raised,
    if any. *)
Definition on_profile_select (profile : option str)
    (data : gmap str pyval) (shown : display)
  : display * option pyexn :=
  if Py.not_ profile then (clear_profile_display, None)
  else
    let profile := default "" profile in
    let title := "Profile: " +:+ profile in
    match
      Py.get_default (default (PyDict ∅) (data !! profile)) "seed" (PyStr "")
    with
    | Raise e => (Display title (shown_seed shown) (shown_rows shown), Some e)
    | Ok seed =>
        let (rows, e) := _refresh_coords_tree profile data in
        (Display title seed rows, e)
    end.

(** [profile] is the selected profile, [seed_var] the text of the
    seed entry. *)
Definition save_seed (profile : option str) (seed_var : str)
    (data : gmap str pyval) : outcome :=
  if Py.not_ profile then
    Outcome data
      [showinfo "No profile" "Select or create a profile first."]
      Returned
  else
    let profile := default "" profile in
    match
      p ← Py.getitem (PyDict data) profile;
      Py.setitem p "seed" (PyStr (strip seed_var))
    with
    | Raise e => Outcome data [] (Raised e)
    | Ok p =>
        let data := <[profile := p]> data in
        Outcome data
          (save_data fs data data_path ++ [showinfo "Saved" "Seed saved."])
          Completed
    end.

(** [int(x) if x.isdigit() or (x.startswith("-") and
    x[1:].isdigit()) else float(x)]; [None] when the conversion
    raises. *)
Definition coord_value (x : str) : option pyval :=
  if isdigit x || (startswith_minus x && isdigit (tail x))
  then PyInt <$> py_int x
  else PyFloat <$> py_float x.

(** [{"name": name, "x": x_val, "y": y_val, "z": z_val}] *)
Definition coord (name : str) (x_val y_val z_val : pyval) : pyval :=
  PyDict (<["name" := PyStr name]> (<["x" := x_val]>
           (<["y" := y_val]> (<["z" := z_val]> ∅)))).

(** [profile] is the selected profile; the other arguments are the
    texts of the four entries.  Once the coordinate is appended and the
    dict saved, the tree is refreshed, and the handler ends with the
    exception that the refresh raises, if any. *)
Definition add_coord (profile : option str)
    (coord_name_var coord_x_var coord_y_var coord_z_var : str)
    (data : gmap str pyval) : outcome :=
  if Py.not_ profile then
    Outcome data
      [showinfo "No profile" "Select or create a profile first."]
      Returned
  else
    let profile := default "" profile in
    let name := strip coord_name_var in
    let x := strip coord_x_var in
    let y := strip coord_y_var in
    let z := strip coord_z_var in
    if negb (nonempty name) then
      Outcome data
        [showerror "Validation" "Give the coordinate a name."] Returned
    else
      match
        x_val ← coord_value x;
        y_val ← coord_value y;
        z_val ← coord_value z;
        Some (x_val, y_val, z_val)
      with
      | None =>
          Outcome data
            [showerror "Validation" "X, Y and Z must be numbers."]
            Returned
      | Some (x_val, y_val, z_val) =>
          match
            p ← Py.getitem (PyDict data) profile;
            coords ← Py.getitem p "coords";
            coords ← Py.append coords (coord name x_val y_val z_val);
            Py.setitem p "coords" coords
          with
          | Raise e => Outcome data [] (Raised e)
          | Ok p =>
              let data := <[profile := p]> data in
              Outcome data (save_data fs data data_path)
                (ends (snd (_refresh_coords_tree profile data)))
          end
      end.

(** [profile] is the selected profile, [sel] the index that the
    selected row of the tree carries as its identifier, [confirm] the
    answer to the question, if it is asked.  Once the entry is removed
    and the dict saved, the tree is refreshed, and the handler ends with
    the exception that the refresh raises, if any. *)
Definition delete_selected_coord (profile : option str)
    (sel : option Z) (confirm : bool) (data : gmap str pyval)
  : outcome :=
  if Py.not_ profile then Outcome data [] Returned
  else
    let profile := default "" profile in
    match sel with
    | None =>
        Outcome data
          [showinfo "Select" "Select a coordinate to delete."] Returned
    | Some idx =>
        match
          p ← Py.getitem (PyDict data) profile;
          coords ← Py.getitem p "coords";
          invalid ← (if (idx <? 0)%Z then mret true
                     else n ← Py.len coords; mret (n <=? idx)%Z);
          mret (p, coords, invalid)
        with
        | Raise e => Outcome data [] (Raised e)
        | Ok (p, coords, invalid) =>
            if invalid : bool then
              Outcome data
                [showerror "Error" "Invalid selection index."] Returned
            else
              match c ← Py.index coords idx; Py.get c "name" with
              | Raise e => Outcome data [] (Raised e)
              | Ok _ =>
                  if negb confirm then Outcome data [] Returned
                  else
                    match
                      coords ← Py.pop coords idx;
                      Py.setitem p "coords" coords
                    with
                    | Raise e => Outcome data [] (Raised e)
                    | Ok p =>
                        let data := <[profile := p]> data in
                        Outcome data (save_data fs data data_path)
                          (ends (snd (_refresh_coords_tree profile data)))
                    end
              end
        end
    end.

(** [path] is the file chosen in the dialog, empty when cancelled;
    [merge] is the answer to "Merge imported profiles into existing
    data?", asked only when the dict is not empty. *)
Definition import_json (path : str) (merge : bool)
    (data : gmap str pyval) : outcome :=
  if negb (nonempty path) then Outcome data [] Returned
  else
    match open_json_load fs path with
    | ReadError e =>
        Outcome data
          [showerror "Import error" ("Failed to import:" +:+ nl +:+ e)]
          Returned
    | ReadJson (PyDict newdata) =>
        let data :=
          if Py.nonempty_dict data && merge
          then newdata ∪ data
          else newdata in
        Outcome data
          (save_data fs data data_path
           ++ [showinfo "Imported" "Import finished."])
          Completed
    | ReadJson _ =>
        Outcome data
          [showerror "Import error"
             "Imported JSON must be an object mapping profile names to profile data."]
          Returned
    end.

(** [path] is the file chosen in the dialog, empty when cancelled. *)
Definition export_json (path : str) (data : gmap str pyval)
  : list event :=
  let error (e : str) :=
    showerror "Export error" ("Failed to export:" +:+ nl +:+ e) in
  if negb (nonempty path) then []
  else
    match open_json_dump fs data path with
    | Written =>
        [json_dump data path; showinfo "Exported" ("Exported to " +:+ path)]
    | OpenError e => [error e]
    | DumpError e cut => [truncated path cut; error e]
    end.

End Handlers.
End CoordManagerApp.

(** ** Sequences of user actions on the profile store *)

Inductive action : Type :=
  | CreateProfile (name : option str)
  | SetSeed (profile : option str) (seed_var : str)
  | AddCoordinate (profile : option str) (name x y z : str)
  | DeleteCoordinate (profile : option str) (sel : option Z)
      (confirm : bool).

Definition perform (fs : files) (a : action) (data : gmap str pyval)
  : outcome :=
  match a with
  | CreateProfile name => CoordManagerApp.add_profile fs name data
  | SetSeed profile seed_var =>
      CoordManagerApp.save_seed fs profile seed_var data
  | AddCoordinate profile name x y z =>
      CoordManagerApp.add_coord fs profile name x y z data
  | DeleteCoordinate profile sel confirm =>
      CoordManagerApp.delete_selected_coord fs profile sel confirm data
  end.

(** The dict after the actions, one after the other. *)
Definition run (fs : files) (actions : list action)
    (data : gmap str pyval) : gmap str pyval :=
  foldl (fun d a => out_data (perform fs a d)) data actions.

(** Everything the user can do to the dict: the actions above, the
    deletion of a profile and an import. *)
Inductive command : Type :=
  | Act (a : action)
  | DeleteProfile (sel : option str) (confirm : bool)
  | ImportJson (path : str) (merge : bool).

Definition execute (fs : files) (c : command) (data : gmap str pyval)
  : outcome :=
  match c with
  | Act a => perform fs a data
  | DeleteProfile sel confirm =>
      CoordManagerApp.delete_profile fs sel confirm data
  | ImportJson path merge => CoordManagerApp.import_json fs path merge data
  end.

(** ** Predicates of the specification *)

Module Spec.
Import PyStr.

(** The digits of a text: what follows its minus sign, if it begins
    with one, and the text itself otherwise. *)
Definition digits (t : str) : str :=
  if startswith_minus t then tail t else t.

(** "an optional leading minus sign followed only by digits", the
    digits being the decimal digits of any script. *)
Definition integral_text (t : str) : bool :=
  nonempty (digits t) && all_chars is_decimal (digits t).

(** The same with the digits 0 to 9 of ASCII only. *)
Definition ascii_integral_text (t : str) : bool :=
  nonempty (digits t) && all_chars PyNum.is_ascii_digit (digits t).

(** The number that a text of decimal digits denotes, most significant
    digit first. *)
Fixpoint number_from (acc : Z) (s : str) : Z :=
  match s with
  | EmptyStr => acc
  | Str c r => number_from (10 * acc + Z.of_N (default 0%N (to_decimal c))) r
  end.

Definition number (s : str) : Z := number_from 0 s.

(** A digit zero, of any script. *)
Definition is_zero (c : N) : bool :=
  match to_decimal c with Some 0%N => true | _ => false end.

Definition is_integral (v : pyval) : bool :=
  match v with PyInt _ => true | _ => false end.

Definition is_fractional (v : pyval) : bool :=
  match v with PyFloat _ => true | _ => false end.

(** The kind of a stored number follows the text it was read from. *)
Definition kind_follows (t : str) (v : pyval) : bool :=
  if integral_text t then is_integral v else is_fractional v.

(** A coordinate whose ["name"] is not the empty text. *)
Definition coord_named (c : pyval) : bool :=
  match c with
  | PyDict cd =>
      match cd !! "name" with
      | Some (PyStr s) => nonempty s
      | _ => true
      end
  | _ => true
  end.

Definition profile_named (v : pyval) : bool :=
  match v with
  | PyDict pd =>
      match pd !! "coords" with
      | Some (PyList l) => forallb coord_named l
      | _ => true
      end
  | _ => true
  end.

(** No coordinate stored in the dict has the empty text as its name. *)
Definition names_nonempty (data : gmap str pyval) : Prop :=
  map_Forall (fun _ v => profile_named v = true) data.

Definition is_dict (v : pyval) : bool :=
  match v with PyDict _ => true | _ => false end.

(** A decimal text: [ip], a point and [fp], after a minus sign when
    [neg]. *)
Definition decimal_text (neg : bool) (ip fp : str) : str :=
  (if neg then "-" else "") +:+ ip +:+ Str "."%chr fp.

(** A plain number: an integer text of no more digits than [int]
    reads, or a decimal text with digits on both sides of its point. *)
Definition number_text (t : str) : Prop :=
  (integral_text t = true
   /\ (Z.of_nat (len (digits t)) <= PyNum.int_max_str_digits)%Z)
  \/ exists neg ip fp,
       t = decimal_text neg ip fp /\
       nonempty ip = true /\ all_chars is_decimal ip = true /\
       nonempty fp = true /\ all_chars is_decimal fp = true.

End Spec.

(** ** Concrete inputs *)

Module Sample.
Import CoordManagerApp.

(** No file exists, and every write succeeds. *)
Definition no_files : files :=
  Files (fun _ => false) (fun _ => ReadError "No such file or directory")
    (fun _ _ => Written).

(** [list.json] holds a JSON array, [doc.json] the object [doc]. *)
Definition some_files (doc : gmap str pyval) : files :=
  Files
    (fun path => bool_decide (path = "list.json")
                 || bool_decide (path = "doc.json"))
    (fun path =>
       if bool_decide (path = "list.json")
       then ReadJson (PyList [PyInt 1; PyInt 2])
       else if bool_decide (path = "doc.json") then ReadJson (PyDict doc)
       else ReadError "No such file or directory")
    (fun _ _ => Written).

(** [{"p": {"seed": "", "coords": []}}] *)
Definition one_profile : gmap str pyval := <["p" := new_profile]> ∅.

Definition profile (seed : str) (coords : list pyval) : pyval :=
  PyDict (<["seed" := PyStr seed]> (<["coords" := PyList coords]> ∅)).

Definition home : pyval := coord "Home" (PyInt 0) (PyInt 64) (PyInt 0).
Definition mine : pyval := coord "Mine" (PyInt 10) (PyInt 12) (PyInt (-30)).

(** A profile ["p"] with two coordinates and a profile ["q"]. *)
Definition two_profiles : gmap str pyval :=
  <["p" := profile "1234" [home; mine]]> (<["q" := profile "" []]> ∅).

(** A document to import: [{"p": {"seed": "77", "coords": [mine]}}]. *)
Definition imported : gmap str pyval := <["p" := profile "77" [mine]]> ∅.

(** A profile under the empty name, with one coordinate. *)
Definition unnamed_profile : gmap str pyval := <["" := profile "" [home]]> ∅.

(** A profile whose list holds a coordinate and a number. *)
Definition malformed : gmap str pyval :=
  <["p" := profile "" [home; PyInt 5]]> ∅.



(** Every path exists and none can be read as JSON. *)
Definition broken_files : files :=
  Files (fun _ => true)
    (fun _ => ReadError "Expecting value: line 1 column 1 (char 0)")
    (fun _ _ => Written).

(** What the panel shows for some profile selected earlier. *)
Definition stale : display :=
  Display "Profile: old" (PyStr "99")
    [Row 0 (PyStr "Old") (PyInt 1) (PyInt 2) (PyInt 3)].

(** The binary64 value 1.5. *)
Definition one_and_a_half : spec_float :=
  S754_finite false 6755399441055744 (-52).

(** The Arabic-Indic digits one, two and three. *)
Definition arabic_123 : str := Str 0x661 (Str 0x662 (Str 0x663 EmptyStr)).

(** [str.lower] on the letters of ASCII. *)
Definition ascii_lower : str -> str := PyNum.ascii_lower_str.

End Sample.

(** * Properties *)

(** ** Characters and texts *)

Section Texts.
Import PyStr PyNum.

Lemma in_ranges_inv rs c :
  in_ranges rs c = true ->
  exists lo hi, In (lo, hi) rs /\ (lo <= c <= hi)%N.
Proof.
  unfold in_ranges. rewrite existsb_exists. intros [[lo hi] [Hin H]].
  unfold between in H. cbn [fst snd] in H.
  apply andb_true_iff in H as [H1 H2].
  apply N.leb_le in H1. apply N.leb_le in H2. eauto.
Qed.

Lemma in_ranges_intro rs c lo hi :
  In (lo, hi) rs -> (lo <= c <= hi)%N -> in_ranges rs c = true.
Proof.
  intros Hin [H1 H2]. unfold in_ranges. apply existsb_exists.
  exists (lo, hi). split; [exact Hin|]. unfold between. cbn [fst snd].
  apply andb_true_iff. split; apply N.leb_le; assumption.
Qed.

(** A decimal digit stands in the run of ten that begins at a digit
    zero, at the place of its value. *)
Lemma to_decimal_inv c d :
  to_decimal c = Some d ->
  exists z, In z decimal_zeros /\ (z <= c < z + 10)%N /\ d = (c - z)%N.
Proof.
  unfold to_decimal.
  destruct (find _ decimal_zeros) as [z|] eqn:E; [|discriminate].
  intros H. injection H as <-. apply find_some in E as [Hin H].
  apply andb_true_iff in H as [H1 H2].
  apply N.leb_le in H1. apply N.ltb_lt in H2. eauto.
Qed.

(** The runs of decimal digits: the ASCII digits apart, they lie from
    127 on, and none holds a whitespace character. *)
Lemma decimal_zeros_checked :
  forallb (fun z =>
             ((z =? 48) || (127 <=? z))
             && negb (existsb (fun r => (fst r <? z + 10) && (z <=? snd r))
                        whitespace))%N
    decimal_zeros = true.
Proof. vm_compute. reflexivity. Qed.

(** The other digits lie from 127 on, and none is a whitespace
    character. *)
Lemma other_digits_checked :
  forallb (fun d =>
             (127 <=? fst d)
             && negb (existsb (fun r => (fst r <=? snd d) && (fst d <=? snd r))
                        whitespace))%N
    other_digits = true.
Proof. vm_compute. reflexivity. Qed.

Lemma to_decimal_lt c d : to_decimal c = Some d -> (d < 10)%N.
Proof. intros H. apply to_decimal_inv in H as (z & _ & Hz & ->). lia. Qed.

Lemma to_decimal_ascii c d :
  to_decimal c = Some d -> (c < 127)%N ->
  is_ascii_digit c = true /\ d = (c - 48)%N.
Proof.
  intros H Hc. apply to_decimal_inv in H as (z & Hin & Hz & ->).
  pose proof (proj1 (forallb_forall _ _) decimal_zeros_checked z Hin) as K.
  cbv beta in K. apply andb_true_iff in K as [K _].
  apply orb_true_iff in K as [K|K].
  - apply N.eqb_eq in K. subst z. split; [|reflexivity].
    unfold is_ascii_digit, between. apply andb_true_iff.
    split; apply N.leb_le; lia.
  - apply N.leb_le in K. lia.
Qed.

Lemma to_decimal_not_space c d :
  to_decimal c = Some d -> isspace_char c = false.
Proof.
  intros H. apply to_decimal_inv in H as (z & Hin & Hz & _).
  pose proof (proj1 (forallb_forall _ _) decimal_zeros_checked z Hin) as K.
  cbv beta in K. apply andb_true_iff in K as [_ K].
  apply negb_true_iff in K.
  destruct (isspace_char c) eqn:E; [|reflexivity].
  apply in_ranges_inv in E as (lo & hi & Hr & Hc).
  rewrite <- K. symmetry. apply existsb_exists. exists (lo, hi).
  split; [exact Hr|]. cbn [fst snd]. apply andb_true_iff.
  split; [apply N.ltb_lt | apply N.leb_le]; lia.
Qed.

Lemma other_digit_high c :
  in_ranges other_digits c = true ->
  (127 <= c)%N /\ isspace_char c = false.
Proof.
  intros H. apply in_ranges_inv in H as (lo & hi & Hin & Hc).
  pose proof (proj1 (forallb_forall _ _) other_digits_checked _ Hin) as K.
  cbv beta in K. cbn [fst snd] in K. apply andb_true_iff in K as [K1 K2].
  apply N.leb_le in K1. split; [lia|].
  apply negb_true_iff in K2.
  destruct (isspace_char c) eqn:E; [|reflexivity].
  apply in_ranges_inv in E as (lo' & hi' & Hr & Hc').
  rewrite <- K2. symmetry. apply existsb_exists. exists (lo', hi').
  split; [exact Hr|]. cbn [fst snd]. apply andb_true_iff.
  split; apply N.leb_le; lia.
Qed.

Lemma is_decimal_some c : is_decimal c = true -> exists d, to_decimal c = Some d.
Proof. unfold is_decimal. destruct (to_decimal c); [eauto|discriminate]. Qed.

Lemma decimal_isdigit c : is_decimal c = true -> isdigit_char c = true.
Proof. unfold isdigit_char. intros ->. reflexivity. Qed.

Lemma isdigit_not_space c : isdigit_char c = true -> isspace_char c = false.
Proof.
  unfold isdigit_char. intros H. apply orb_true_iff in H as [H|H].
  - apply is_decimal_some in H as [d H]. apply (to_decimal_not_space c d H).
  - apply other_digit_high, H.
Qed.

(** Below 127 the digits of [isdigit] are the ASCII digits. *)
Lemma isdigit_ascii c :
  isdigit_char c = true -> (c < 127)%N -> is_ascii_digit c = true.
Proof.
  unfold isdigit_char. intros H Hc. apply orb_true_iff in H as [H|H].
  - apply is_decimal_some in H as [d H]. apply (to_decimal_ascii c d H Hc).
  - apply other_digit_high in H as [H _]. lia.
Qed.

Lemma ascii_digit_range c :
  is_ascii_digit c = true <-> (48 <= c <= 57)%N.
Proof.
  unfold is_ascii_digit, between. rewrite andb_true_iff, !N.leb_le.
  reflexivity.
Qed.

(** The ASCII digits are decimal digits, of the value that their code
    point has above that of the digit zero. *)
Lemma ascii_digit_decimal c :
  is_ascii_digit c = true -> to_decimal c = Some (c - 48)%N.
Proof.
  intros H. apply ascii_digit_range in H. unfold to_decimal.
  change decimal_zeros with (48%N :: tl decimal_zeros). cbn [find].
  assert (((48 <=? c) && (c <? 48 + 10))%N = true) as ->; [|reflexivity].
  apply andb_true_iff. split; [apply N.leb_le | apply N.ltb_lt]; lia.
Qed.

Lemma ascii_digit_not_space c :
  is_ascii_digit c = true -> is_ascii_space c = false.
Proof.
  intros H. apply ascii_digit_range in H. unfold is_ascii_space, between.
  apply orb_false_iff. split.
  - apply andb_false_iff. right. apply N.leb_gt. lia.
  - apply N.eqb_neq. lia.
Qed.

Lemma isdigit_not_char c (k : N) :
  isdigit_char k = false -> isdigit_char c = true -> (c =? k)%N = false.
Proof.
  intros Hk Hc. destruct (N.eqb_spec c k) as [->|]; congruence.
Qed.

Lemma ascii_digit_not_char c (k : N) :
  is_ascii_digit k = false -> is_ascii_digit c = true -> (c =? k)%N = false.
Proof.
  intros Hk Hc. destruct (N.eqb_spec c k) as [->|]; congruence.
Qed.

Lemma all_chars_impl (p q : N -> bool) s :
  (forall c, p c = true -> q c = true) ->
  all_chars p s = true -> all_chars q s = true.
Proof.
  intros Hpq. induction s as [|c r IH]; simpl; [reflexivity|].
  rewrite !andb_true_iff. intros [Hc Hr]. auto.
Qed.

Lemma append_nil s : "" +:+ s = s.
Proof. reflexivity. Qed.

Lemma append_cons c a s : Str c a +:+ s = Str c (a +:+ s).
Proof. reflexivity. Qed.

Lemma all_chars_app p a b :
  all_chars p (a +:+ b) = all_chars p a && all_chars p b.
Proof.
  induction a as [|c r IH]; [reflexivity|].
  rewrite append_cons. simpl. rewrite IH. apply andb_assoc.
Qed.

Lemma len_app a b : len (a +:+ b) = len a + len b.
Proof.
  induction a as [|c r IH]; [reflexivity|].
  rewrite append_cons. simpl. rewrite IH. reflexivity.
Qed.

Lemma rstrip_by_none p s :
  all_chars (fun c => negb (p c)) s = true -> rstrip_by p s = s.
Proof.
  induction s as [|c r IH]; simpl; [reflexivity|].
  rewrite andb_true_iff, negb_true_iff. intros [Hc Hr].
  rewrite (IH Hr), Hc. destruct r; reflexivity.
Qed.

Lemma lstrip_by_none p s :
  all_chars (fun c => negb (p c)) s = true -> lstrip_by p s = s.
Proof.
  destruct s as [|c r]; simpl; [reflexivity|].
  rewrite andb_true_iff, negb_true_iff. intros [-> _]. reflexivity.
Qed.

Lemma strip_no_space s :
  all_chars (fun c => negb (isspace_char c)) s = true -> strip s = s.
Proof.
  intros H. unfold strip. rewrite (rstrip_by_none _ _ H).
  apply lstrip_by_none, H.
Qed.

Lemma ascii_strip_no_space s :
  all_chars (fun c => negb (is_ascii_space c)) s = true -> ascii_strip s = s.
Proof.
  intros H. unfold ascii_strip. rewrite (rstrip_by_none _ _ H).
  apply lstrip_by_none, H.
Qed.

Lemma digitpart_cons c r :
  digitpart (Str c r) =
  if is_ascii_digit c then
    match r with
    | Str u r1 =>
        if (u =? "_"%chr)%N then
          match r1 with
          | Str c1 _ =>
              if is_ascii_digit c1
              then let (ds, rest) := digitpart r1 in (Str c ds, rest)
              else (Str c EmptyStr, r)
          | EmptyStr => (Str c EmptyStr, r)
          end
        else let (ds, rest) := digitpart r in (Str c ds, rest)
    | EmptyStr => (Str c EmptyStr, EmptyStr)
    end
  else (EmptyStr, Str c r).
Proof. reflexivity. Qed.

(** A text of ASCII digits is read by [digitpart] to its end. *)
Lemma digitpart_decimal s :
  all_chars is_ascii_digit s = true -> digitpart s = (s, EmptyStr).
Proof.
  induction s as [|c r IH]; intros H; [reflexivity|].
  simpl in H. apply andb_true_iff in H as [Hc Hr].
  rewrite digitpart_cons, Hc. destruct r as [|u r1]; [reflexivity|].
  assert (Hu : (u =? "_"%chr)%N = false).
  { simpl in Hr. apply andb_true_iff in Hr as [Hr _].
    apply (ascii_digit_not_char u "_"%chr eq_refl Hr). }
  rewrite Hu, (IH Hr). reflexivity.
Qed.

(** [digitpart] stops in front of a character that is neither a digit
    nor an underscore. *)
Lemma digitpart_stop a c r :
  all_chars is_ascii_digit a = true ->
  is_ascii_digit c = false -> (c =? "_"%chr)%N = false ->
  digitpart (a +:+ Str c r) = (a, Str c r).
Proof.
  intros Ha Hc Hu. induction a as [|x a IH].
  - rewrite ?append_cons, ?append_nil. rewrite digitpart_cons, Hc.
    reflexivity.
  - simpl in Ha. apply andb_true_iff in Ha as [Hx Ha].
    specialize (IH Ha). rewrite ?append_cons, ?append_nil.
    rewrite digitpart_cons, Hx.
    destruct a as [|u a'].
    + rewrite ?append_cons, ?append_nil in *. rewrite Hu, IH. reflexivity.
    + rewrite ?append_cons, ?append_nil in *.
      assert ((u =? "_"%chr)%N = false) as ->.
      { simpl in Ha. apply andb_true_iff in Ha as [Hd _].
        apply (ascii_digit_not_char u "_"%chr eq_refl Hd). }
      rewrite IH. reflexivity.
Qed.

Lemma ascii_digits_no_space s :
  all_chars is_ascii_digit s = true ->
  all_chars (fun c => negb (is_ascii_space c)) s = true.
Proof.
  apply all_chars_impl. intros c Hc. rewrite (ascii_digit_not_space c Hc).
  reflexivity.
Qed.

End Texts.

(** ** What [int] and [float] make of digits *)

Section Digits.
Import PyStr PyNum.

(** A text of decimal digits, of whatever script, becomes the text of
    the ASCII digits of the same values. *)
Lemma to_ascii_decimal s :
  all_chars is_decimal s = true ->
  all_chars is_ascii_digit (to_ascii s) = true
  /\ len (to_ascii s) = len s
  /\ forall acc, decimal_value acc (to_ascii s) = Spec.number_from acc s.
Proof.
  induction s as [|c r IH]; intros H; [repeat split|].
  simpl in H. apply andb_true_iff in H as [Hc Hr].
  destruct (IH Hr) as (IH1 & IH2 & IH3).
  apply is_decimal_some in Hc as [d Hd].
  cbn [to_ascii Spec.number_from]. rewrite Hd. cbn [default from_option id].
  destruct (N.ltb_spec c 127) as [Hlt|Hge].
  - destruct (to_decimal_ascii c d Hd Hlt) as [Ha ->].
    cbn [all_chars len decimal_value]. rewrite Ha, IH1, IH2.
    repeat split. intros acc. rewrite IH3. f_equal.
    unfold digit_value. apply ascii_digit_range in Ha. lia.
  - rewrite (to_decimal_not_space c d Hd).
    pose proof (to_decimal_lt c d Hd) as Hlt.
    assert (Ha : is_ascii_digit (48 + d) = true)
      by (apply ascii_digit_range; lia).
    cbn [all_chars len decimal_value].
    change ("0"%chr) with 48%N. rewrite Ha, IH1, IH2.
    repeat split. intros acc. rewrite IH3. f_equal.
    unfold digit_value. lia.
Qed.

Lemma to_ascii_nonempty s :
  all_chars is_decimal s = true -> nonempty s = true ->
  nonempty (to_ascii s) = true.
Proof.
  intros Hall Hne. destruct (to_ascii_decimal s Hall) as (_ & Hl & _).
  destruct s; [discriminate Hne|].
  destruct (to_ascii (Str c s)); [discriminate Hl | reflexivity].
Qed.

Lemma to_ascii_app a b :
  all_chars is_decimal a = true ->
  to_ascii (a +:+ b) = to_ascii a +:+ to_ascii b.
Proof.
  induction a as [|c r IH]; intros H; [reflexivity|].
  simpl in H. apply andb_true_iff in H as [Hc Hr].
  apply is_decimal_some in Hc as [d Hd].
  rewrite append_cons. cbn [to_ascii]. rewrite Hd, (IH Hr).
  rewrite (to_decimal_not_space c d Hd).
  destruct (c <? 127)%N; reflexivity.
Qed.

(** A text of digits of [isdigit] is a text of decimal digits, or ends,
    once brought to ASCII, at the question mark that stands for the
    first digit that is not decimal. *)
Lemma to_ascii_isdigit s :
  all_chars isdigit_char s = true ->
  all_chars is_decimal s = true
  \/ exists pre, to_ascii s = pre +:+ "?"
                 /\ all_chars is_ascii_digit pre = true.
Proof.
  induction s as [|c r IH]; intros H; [left; reflexivity|].
  simpl in H. apply andb_true_iff in H as [Hc Hr].
  cbn [to_ascii all_chars].
  destruct (is_decimal c) eqn:Hd.
  - apply is_decimal_some in Hd as [d Hd].
    destruct (IH Hr) as [Hall | (pre & E & Hpre)]; [left; exact Hall|].
    right. rewrite E.
    destruct (N.ltb_spec c 127) as [Hlt|Hge].
    + exists (Str c pre). split; [reflexivity|]. simpl.
      rewrite (isdigit_ascii c Hc Hlt), Hpre. reflexivity.
    + rewrite (to_decimal_not_space c d Hd), Hd.
      exists (Str (48 + d) pre). split; [reflexivity|]. simpl.
      pose proof (to_decimal_lt c d Hd) as Hlt.
      assert (is_ascii_digit (48 + d) = true) as ->
        by (apply ascii_digit_range; lia).
      exact Hpre.
  - right. exists "". split; [|reflexivity].
    destruct (N.ltb_spec c 127) as [Hlt|Hge].
    + pose proof (isdigit_ascii c Hc Hlt) as Ha.
      apply ascii_digit_decimal in Ha. unfold is_decimal in Hd.
      rewrite Ha in Hd. discriminate Hd.
    + rewrite (isdigit_not_space c Hc). unfold is_decimal in Hd.
      destruct (to_decimal c); [discriminate Hd | reflexivity].
Qed.

(** [int] and [float] find no sign in front of a digit. *)
Lemma sign_digit c r :
  is_ascii_digit c = true -> sign (Str c r) = (false, Str c r).
Proof.
  intros Hc. unfold sign.
  rewrite (ascii_digit_not_char c "-"%chr eq_refl Hc).
  rewrite (ascii_digit_not_char c "+"%chr eq_refl Hc). reflexivity.
Qed.

(** [int] reads a text of decimal digits as the number they denote,
    unless they are too many. *)
Lemma py_int_decimal s :
  nonempty s = true -> all_chars is_decimal s = true ->
  py_int s =
    if (Z.of_nat (len s) <=? int_max_str_digits)%Z
    then Some (Spec.number s) else None.
Proof.
  intros Hne Hall. destruct (to_ascii_decimal s Hall) as (Ha & Hl & Hv).
  unfold py_int.
  rewrite (ascii_strip_no_space _ (ascii_digits_no_space _ Ha)).
  pose proof (to_ascii_nonempty s Hall Hne) as Hne'.
  destruct (to_ascii s) as [|c r] eqn:E; [discriminate Hne'|].
  assert (Hc : is_ascii_digit c = true).
  { simpl in Ha. apply andb_true_iff in Ha as [Hc _]. exact Hc. }
  rewrite (sign_digit c r Hc), (digitpart_decimal _ Ha).
  unfold Spec.number. rewrite <- Hl, <- Hv. reflexivity.
Qed.

Lemma py_int_minus_decimal r :
  nonempty r = true -> all_chars is_decimal r = true ->
  py_int (Str "-"%chr r) =
    if (Z.of_nat (len r) <=? int_max_str_digits)%Z
    then Some (- Spec.number r)%Z else None.
Proof.
  intros Hne Hall. destruct (to_ascii_decimal r Hall) as (Ha & Hl & Hv).
  unfold py_int. cbn [to_ascii]. change ("-"%chr <? 127)%N with true.
  cbv iota. rewrite ascii_strip_no_space.
  - unfold sign. change ("-"%chr =? "-"%chr)%N with true. cbv iota.
    pose proof (to_ascii_nonempty r Hall Hne) as Hne'.
    rewrite (digitpart_decimal _ Ha). unfold Spec.number.
    rewrite <- Hl, <- Hv.
    destruct (to_ascii r); [discriminate Hne' | reflexivity].
  - simpl. apply ascii_digits_no_space, Ha.
Qed.

(** A text that ends at a question mark after ASCII digits is no
    number. *)
Lemma digitpart_question pre :
  all_chars is_ascii_digit pre = true ->
  digitpart (pre +:+ "?") = (pre, "?").
Proof. intros H. apply (digitpart_stop pre "?"%chr "" H); reflexivity. Qed.

Lemma question_no_space pre :
  all_chars is_ascii_digit pre = true ->
  all_chars (fun c => negb (is_ascii_space c)) (pre +:+ "?") = true.
Proof.
  intros H. rewrite all_chars_app, (ascii_digits_no_space pre H).
  reflexivity.
Qed.

Lemma sign_question pre :
  all_chars is_ascii_digit pre = true ->
  sign (pre +:+ "?") = (false, pre +:+ "?").
Proof.
  intros H. destruct pre as [|c r]; [reflexivity|].
  rewrite append_cons. apply sign_digit.
  simpl in H. apply andb_true_iff in H as [Hc _]. exact Hc.
Qed.

(** [int] reads a text that [isdigit] accepts only if all its
    characters are decimal digits. *)
Lemma py_int_isdigit s n :
  isdigit s = true -> py_int s = Some n -> all_chars is_decimal s = true.
Proof.
  unfold isdigit. intros Hd Hi. apply andb_true_iff in Hd as [Hne Hall].
  destruct (to_ascii_isdigit s Hall) as [H | (pre & E & Hpre)]; [exact H|].
  exfalso. unfold py_int in Hi. rewrite E in Hi.
  rewrite (ascii_strip_no_space _ (question_no_space pre Hpre)) in Hi.
  rewrite (sign_question pre Hpre), (digitpart_question pre Hpre) in Hi.
  destruct pre; discriminate Hi.
Qed.

(** The same for a minus sign followed by a text that [isdigit]
    accepts. *)
Lemma py_int_minus_isdigit s n :
  startswith_minus s = true -> isdigit (tail s) = true ->
  py_int s = Some n -> all_chars is_decimal (tail s) = true.
Proof.
  intros Hm Hd Hi. destruct s as [|c r]; [discriminate|].
  simpl in Hm, Hd |- *. apply N.eqb_eq in Hm. subst c.
  unfold isdigit in Hd. apply andb_true_iff in Hd as [Hne Hall].
  destruct (to_ascii_isdigit r Hall) as [H | (pre & E & Hpre)]; [exact H|].
  exfalso. unfold py_int in Hi. cbn [to_ascii] in Hi.
  change ("-"%chr <? 127)%N with true in Hi. cbv iota in Hi.
  rewrite E in Hi. rewrite ascii_strip_no_space in Hi.
  - unfold sign in Hi. change ("-"%chr =? "-"%chr)%N with true in Hi.
    cbv iota in Hi. rewrite (digitpart_question pre Hpre) in Hi.
    destruct pre; discriminate Hi.
  - simpl. apply (question_no_space pre Hpre).
Qed.

End Digits.

(** ** Reading a coordinate field *)

Section Numbers.
Import PyStr PyNum CoordManagerApp.

Lemma isdigit_chars s :
  isdigit s = true -> nonempty s = true /\ all_chars isdigit_char s = true.
Proof. unfold isdigit. apply andb_true_iff. Qed.

Lemma isdigit_no_space s :
  all_chars isdigit_char s = true ->
  all_chars (fun c => negb (isspace_char c)) s = true.
Proof.
  apply all_chars_impl. intros c Hc. rewrite (isdigit_not_space c Hc).
  reflexivity.
Qed.

Lemma decimal_no_space s :
  all_chars is_decimal s = true ->
  all_chars (fun c => negb (isspace_char c)) s = true.
Proof.
  intros H. apply isdigit_no_space. revert H.
  apply all_chars_impl, decimal_isdigit.
Qed.

(** A text that [isdigit] accepts does not begin with a minus sign. *)
Lemma isdigit_not_minus t :
  isdigit t = true -> startswith_minus t = false.
Proof.
  intros H. apply isdigit_chars in H as [_ Hall].
  destruct t as [|c r]; [reflexivity|]. simpl in Hall |- *.
  apply andb_true_iff in Hall as [Hc _].
  apply (isdigit_not_char c "-"%chr eq_refl Hc).
Qed.

(** Texts of the integral form pass the test that [add_coord] makes
    before it calls [int]. *)
Lemma integral_text_guard t :
  Spec.integral_text t = true ->
  isdigit t || (startswith_minus t && isdigit (tail t)) = true.
Proof.
  unfold Spec.integral_text, Spec.digits, isdigit. intros H.
  apply andb_true_iff in H as [Hne Hall].
  apply (all_chars_impl _ _ _ decimal_isdigit) in Hall.
  destruct (startswith_minus t); rewrite Hne, Hall; simpl;
    [apply orb_true_r | reflexivity].
Qed.

(** A field that is read as an [int] has the integral form, and one
    that is read as a [float] has not. *)
Lemma coord_value_kind t v :
  coord_value t = Some v -> Spec.kind_follows t v = true.
Proof.
  unfold coord_value, Spec.kind_follows. intros H.
  destruct (isdigit t || (startswith_minus t && isdigit (tail t))) eqn:G.
  - destruct (py_int t) as [n|] eqn:Hi; [|discriminate].
    injection H as <-.
    assert (Spec.integral_text t = true) as ->; [|reflexivity].
    unfold Spec.integral_text, Spec.digits.
    apply orb_true_iff in G as [Hd | Hm].
    + rewrite (isdigit_not_minus t Hd), (py_int_isdigit t n Hd Hi).
      apply isdigit_chars in Hd as [-> _]. reflexivity.
    + apply andb_true_iff in Hm as [Hs Hd]. rewrite Hs.
      rewrite (py_int_minus_isdigit t n Hs Hd Hi).
      apply isdigit_chars in Hd as [-> _]. reflexivity.
  - destruct (py_float t) as [f|]; [|discriminate]. injection H as <-.
    destruct (Spec.integral_text t) eqn:Ht; [|reflexivity].
    rewrite (integral_text_guard t Ht) in G. discriminate.
Qed.

(** What [add_coord] makes of a text of the integral form: the [int]
    that its digits denote, negated after a minus sign, or, when the
    digits are more than [int] reads, nothing. *)
Lemma coord_value_integral t :
  Spec.integral_text t = true ->
  coord_value t =
    if (Z.of_nat (len (Spec.digits t)) <=? int_max_str_digits)%Z
    then Some (PyInt (if startswith_minus t
                      then (- Spec.number (Spec.digits t))%Z
                      else Spec.number (Spec.digits t)))
    else None.
Proof.
  intros H. unfold coord_value. rewrite (integral_text_guard t H).
  unfold Spec.integral_text, Spec.digits in *.
  apply andb_true_iff in H as [Hne Hall].
  destruct (startswith_minus t) eqn:Hs.
  - destruct t as [|c r]; [discriminate|]. simpl in Hs, Hne, Hall |- *.
    apply N.eqb_eq in Hs. subst c.
    rewrite (py_int_minus_decimal r Hne Hall).
    destruct (_ <=? _)%Z; reflexivity.
  - rewrite (py_int_decimal t Hne Hall).
    destruct (_ <=? _)%Z; reflexivity.
Qed.

End Numbers.

(** ** Decimal texts *)

Section Decimals.
Import PyStr PyNum CoordManagerApp.

(** What [float] makes of the digits of a decimal text, once in
    ASCII. *)
Lemma floatnumber_decimal neg a b :
  nonempty a = true -> all_chars is_ascii_digit a = true ->
  all_chars is_ascii_digit b = true ->
  floatnumber neg (a +:+ Str "."%chr b) =
    Some (decimal_to_double neg (decimal_value 0 (a +:+ b))
            (- Z.of_nat (len b))).
Proof.
  intros Hne Ha Hb. unfold floatnumber.
  rewrite (digitpart_stop a "."%chr b Ha eq_refl eq_refl).
  change ("."%chr =? "."%chr)%N with true. cbv iota.
  rewrite (digitpart_decimal b Hb), Hne. reflexivity.
Qed.

Lemma py_float_decimal neg ip fp :
  nonempty ip = true -> all_chars is_decimal ip = true ->
  nonempty fp = true -> all_chars is_decimal fp = true ->
  py_float (Spec.decimal_text neg ip fp) =
  Some (decimal_to_double neg (Spec.number (ip +:+ fp))
          (- Z.of_nat (len fp))).
Proof.
  intros Hi Hip Hf Hfp.
  destruct (to_ascii_decimal ip Hip) as (Ha & _ & _).
  destruct (to_ascii_decimal fp Hfp) as (Hb & Hlb & _).
  assert (Hall : all_chars is_decimal (ip +:+ fp) = true)
    by (rewrite all_chars_app, Hip, Hfp; reflexivity).
  destruct (to_ascii_decimal (ip +:+ fp) Hall) as (_ & _ & Hv).
  assert (Hbody : to_ascii (ip +:+ Str "."%chr fp)
                  = to_ascii ip +:+ Str "."%chr (to_ascii fp)).
  { rewrite (to_ascii_app ip _ Hip). reflexivity. }
  assert (Hval : floatnumber neg (to_ascii ip +:+ Str "."%chr (to_ascii fp))
                 = Some (decimal_to_double neg (Spec.number (ip +:+ fp))
                           (- Z.of_nat (len fp)))).
  { rewrite (floatnumber_decimal neg _ _ (to_ascii_nonempty ip Hip Hi) Ha Hb).
    rewrite <- (to_ascii_app ip fp Hip), Hv, Hlb. reflexivity. }
  assert (Hns : all_chars (fun c => negb (is_ascii_space c))
                  (to_ascii ip +:+ Str "."%chr (to_ascii fp)) = true).
  { rewrite all_chars_app. simpl.
    rewrite (ascii_digits_no_space _ Ha), (ascii_digits_no_space _ Hb).
    reflexivity. }
  unfold py_float, Spec.decimal_text. destruct neg.
  - rewrite ?append_cons, ?append_nil. cbn [to_ascii].
    change ("-"%chr <? 127)%N with true. cbv iota. rewrite Hbody.
    rewrite ascii_strip_no_space by (simpl; exact Hns).
    unfold sign. change ("-"%chr =? "-"%chr)%N with true. cbv iota.
    rewrite Hval. reflexivity.
  - rewrite ?append_nil, Hbody, (ascii_strip_no_space _ Hns).
    pose proof (to_ascii_nonempty ip Hip Hi) as Hne.
    destruct (to_ascii ip) as [|c r] eqn:E; [discriminate Hne|].
    rewrite append_cons, sign_digit.
    + rewrite <- append_cons, Hval. reflexivity.
    + simpl in Ha. apply andb_true_iff in Ha as [Hc _]. exact Hc.
Qed.

(** A text with a point is not of the integral form. *)
Lemma decimal_text_not_integral neg ip fp :
  Spec.integral_text (Spec.decimal_text neg ip fp) = false.
Proof.
  unfold Spec.integral_text, Spec.digits, Spec.decimal_text.
  assert (H : forall s, all_chars is_decimal (s +:+ Str "."%chr fp) = false).
  { intros s. rewrite all_chars_app. simpl. apply andb_false_r. }
  destruct neg; rewrite ?append_cons, ?append_nil.
  - simpl. rewrite H. apply andb_false_r.
  - destruct (startswith_minus (ip +:+ Str "."%chr fp)) eqn:Hs.
    + destruct ip as [|c r]; [discriminate|].
      rewrite ?append_cons, ?append_nil.
      simpl tail. rewrite H. apply andb_false_r.
    + rewrite H. apply andb_false_r.
Qed.

(** A text with a point does not pass the test that [add_coord] makes
    before it calls [int]. *)
Lemma decimal_text_guard neg ip fp :
  isdigit (Spec.decimal_text neg ip fp)
  || (startswith_minus (Spec.decimal_text neg ip fp)
      && isdigit (tail (Spec.decimal_text neg ip fp))) = false.
Proof.
  assert (H : forall s, all_chars isdigit_char (s +:+ Str "."%chr fp) = false).
  { intros s. rewrite all_chars_app. simpl. apply andb_false_r. }
  unfold Spec.decimal_text, isdigit.
  destruct neg; rewrite ?append_cons, ?append_nil.
  - simpl. rewrite H. apply andb_false_r.
  - rewrite H, andb_false_r. simpl.
    destruct ip as [|c r]; rewrite ?append_cons, ?append_nil.
    + reflexivity.
    + simpl. rewrite H, !andb_false_r. reflexivity.
Qed.

(** Every decimal text is read, as the [float] nearest to it. *)
Lemma coord_value_decimal neg ip fp :
  nonempty ip = true -> all_chars is_decimal ip = true ->
  nonempty fp = true -> all_chars is_decimal fp = true ->
  coord_value (Spec.decimal_text neg ip fp) =
  Some (PyFloat (decimal_to_double neg (Spec.number (ip +:+ fp))
                   (- Z.of_nat (len fp)))).
Proof.
  intros Hi Hip Hf Hfp. unfold coord_value.
  rewrite decimal_text_guard.
  rewrite (py_float_decimal neg ip fp Hi Hip Hf Hfp). reflexivity.
Qed.

End Decimals.

(** ** The tree after a refresh *)

Section Tree.
Import PyStr CoordManagerApp.

(** The loop of the refresh stops on [AttributeError] at the first
    item that is not a dict, and on nothing else. *)
Lemma tree_rows_exit (l : list pyval) idx :
  snd (tree_rows idx l) =
    if forallb Spec.is_dict l then None else Some AttributeError.
Proof.
  revert idx. induction l as [|c l IH]; intros idx; [reflexivity|].
  destruct c as [| | | | | |c]; try reflexivity.
  simpl. specialize (IH (S idx)).
  destruct (tree_rows (S idx) l) as [rows e]. exact IH.
Qed.

(** For a profile that has its list, the refresh shows the items of
    the list. *)
Lemma refresh_of_list (data : gmap str pyval) p pd l :
  data !! p = Some (PyDict pd) -> pd !! "coords" = Some (PyList l) ->
  _refresh_coords_tree p data = tree_rows 0 l.
Proof.
  unfold _refresh_coords_tree. intros -> Hc.
  cbn [from_option id Py.get_default mbind result_bind].
  rewrite Hc. reflexivity.
Qed.

(** How a handler ends that has put the list [l] in place of the list
    of the profile [p] and refreshes the tree. *)
Lemma ends_refresh (data : gmap str pyval) p pd l :
  ends (snd (_refresh_coords_tree p
               (<[p := PyDict (<["coords" := PyList l]> pd)]> data)))
  = if forallb Spec.is_dict l then Completed else Raised AttributeError.
Proof.
  rewrite (refresh_of_list _ p _ l (lookup_insert_eq _ _ _)
             (lookup_insert_eq _ _ _)).
  rewrite tree_rows_exit. destruct (forallb Spec.is_dict l); reflexivity.
Qed.

Lemma forallb_is_dict (l : list pyval) :
  forallb Spec.is_dict l = true <->
  Forall (fun c => Spec.is_dict c = true) l.
Proof.
  rewrite forallb_forall, Forall_forall. split; intros H c Hc; apply H.
  - apply list_elem_of_In, Hc.
  - apply list_elem_of_In, Hc.
Qed.

Lemma forallb_delete {A} (f : A -> bool) (l : list A) i :
  forallb f l = true -> forallb f (delete i l) = true.
Proof.
  revert i. induction l as [|x l IH]; intros i H; [destruct i; exact H|].
  simpl in H. apply andb_true_iff in H as [Hx Hl].
  destruct i as [|i]; simpl; [exact Hl|].
  rewrite Hx. apply IH, Hl.
Qed.

End Tree.

(** ** The handlers, case by case *)

Section HandlerCases.
Import PyStr PyNum CoordManagerApp.
Variable fs : files.

Ltac run :=
  cbn [mbind mret result_bind result_ret option_bind negb from_option id
       Py.not_ Py.getitem Py.setitem Py.append Py.len Py.get].

Ltac unchanged :=
  run; left; split;
  [intros Hexit; simpl in Hexit; discriminate Hexit
  | split; reflexivity].

Lemma position_in_range n i :
  (0 <= i < Z.of_nat n)%Z -> Py.position n i = Some (Z.to_nat i).
Proof.
  intros [H0 H1]. unfold Py.position.
  destruct (Z.leb_spec 0 i); [|lia].
  destruct (Z.ltb_spec i (Z.of_nat n)); [reflexivity|lia].
Qed.

(** The events of [save_data] open one file, if any: the one they are
    given. *)
Lemma touched_save_data data path :
  touched (save_data fs data path) =
    match open_json_dump fs data path with
    | OpenError _ => []
    | _ => [path]
    end.
Proof. unfold save_data. destruct (open_json_dump fs data path); reflexivity. Qed.

Lemma dumps_touched events : touched events = [] -> dumps events = [].
Proof.
  induction events as [|e events IH]; [reflexivity|].
  destruct e; simpl; try exact IH; discriminate.
Qed.

(** [add_profile] either leaves the dict and the files as they are or
    inserts a new profile under the trimmed name, which was not a
    key. *)
Lemma add_profile_cases name data :
  let o := add_profile fs name data in
  (out_exit o <> Completed /\ leaves data o) \/
  (exists n, name = Some n /\ nonempty n = true /\
     data !! strip n = None /\
     o = Outcome (<[strip n := new_profile]> data)
           (save_data fs (<[strip n := new_profile]> data) data_path)
           Completed).
Proof.
  cbv zeta. unfold add_profile. destruct name as [n|]; cbn [Py.not_]; [|unchanged].
  destruct (nonempty n) eqn:Hn; cbn [negb from_option id]; [|unchanged].
  destruct (decide (is_Some (data !! strip n))) as [Hs|Hs]; [unchanged|].
  right. exists n. repeat split; try reflexivity; try assumption.
  destruct (data !! strip n) eqn:E; [|reflexivity].
  exfalso. apply Hs. eauto.
Qed.

(** [save_seed] either leaves the dict and the files as they are or
    replaces the seed of the selected profile. *)
Lemma save_seed_cases profile seed_var data :
  let o := save_seed fs profile seed_var data in
  (out_exit o <> Completed /\ leaves data o) \/
  (exists p pd, profile = Some p /\ nonempty p = true /\
     data !! p = Some (PyDict pd) /\
     out_data o = <[p := PyDict (<["seed" := PyStr (strip seed_var)]> pd)]> data).
Proof.
  cbv zeta. unfold save_seed. destruct profile as [p|]; cbn [Py.not_]; [|unchanged].
  destruct (nonempty p) eqn:Hp; cbn [negb from_option id]; [|unchanged].
  run. destruct (data !! p) as [pv|] eqn:Hd; [|unchanged].
  destruct pv as [| | | | | |pd]; try unchanged.
  right. exists p, pd. repeat split; try reflexivity; assumption.
Qed.

(** [add_coord] either leaves the dict and the files as they are or
    appends one coordinate to the list of the selected profile and saves
    the dict; it then goes through if the list holds dicts only, and
    ends on the [AttributeError] of its refresh if not. *)
Lemma add_coord_cases profile name x y z data :
  let o := add_coord fs profile name x y z data in
  (out_exit o <> Completed /\ leaves data o) \/
  (exists p pd l xv yv zv,
     profile = Some p /\ nonempty p = true /\
     nonempty (strip name) = true /\
     coord_value (strip x) = Some xv /\
     coord_value (strip y) = Some yv /\
     coord_value (strip z) = Some zv /\
     data !! p = Some (PyDict pd) /\ pd !! "coords" = Some (PyList l) /\
     out_data o =
       <[p := PyDict (<["coords" :=
                         PyList (l ++ [coord (strip name) xv yv zv])]> pd)]>
         data /\
     out_events o = save_data fs (out_data o) data_path /\
     out_exit o =
       if forallb Spec.is_dict l then Completed else Raised AttributeError).
Proof.
  cbv zeta. unfold add_coord. destruct profile as [p|]; cbn [Py.not_]; [|unchanged].
  destruct (nonempty p) eqn:Hp; cbn [negb from_option id]; [|unchanged].
  destruct (nonempty (strip name)) eqn:Hn; cbn [negb]; [|unchanged].
  destruct (coord_value (strip x)) as [xv|] eqn:Hx;
    cbn [mbind option_bind]; [|unchanged].
  destruct (coord_value (strip y)) as [yv|] eqn:Hy;
    cbn [mbind option_bind]; [|unchanged].
  destruct (coord_value (strip z)) as [zv|] eqn:Hz;
    cbn [mbind option_bind]; [|unchanged].
  run. destruct (data !! p) as [pv|] eqn:Hd; [|unchanged].
  destruct pv as [| | | | | |pd]; try unchanged.
  run. destruct (pd !! "coords") as [cv|] eqn:Hc; [|unchanged].
  destruct cv as [| | | | |l|]; try unchanged.
  right. exists p, pd, l, xv, yv, zv. run. cbn [out_data out_events out_exit].
  repeat split; try reflexivity; try assumption.
  rewrite ends_refresh, forallb_app. cbn [forallb coord Spec.is_dict].
  rewrite !andb_true_r. reflexivity.
Qed.

(** [delete_selected_coord] either leaves the dict and the files as
    they are or removes the selected entry, a dict, from the list of the
    selected profile and saves the dict; it then goes through if the
    list that is left holds dicts only, and ends on the [AttributeError]
    of its refresh if not. *)
Lemma delete_selected_coord_cases profile sel confirm data :
  let o := delete_selected_coord fs profile sel confirm data in
  (out_exit o <> Completed /\ leaves data o) \/
  (exists p idx pd l c,
     profile = Some p /\ nonempty p = true /\ sel = Some idx /\
     confirm = true /\ (0 <= idx < Z.of_nat (length l))%Z /\
     data !! p = Some (PyDict pd) /\ pd !! "coords" = Some (PyList l) /\
     l !! Z.to_nat idx = Some (PyDict c) /\
     out_data o =
       <[p := PyDict (<["coords" := PyList (delete (Z.to_nat idx) l)]> pd)]>
         data /\
     out_events o = save_data fs (out_data o) data_path /\
     out_exit o =
       if forallb Spec.is_dict (delete (Z.to_nat idx) l) then Completed
       else Raised AttributeError).
Proof.
  cbv zeta. unfold delete_selected_coord.
  destruct profile as [p|]; cbn [Py.not_]; [|unchanged].
  destruct (nonempty p) eqn:Hp; cbn [negb from_option id]; [|unchanged].
  destruct sel as [idx|]; [|unchanged].
  run. destruct (data !! p) as [pv|] eqn:Hd; [|unchanged].
  destruct pv as [| | | | | |pd]; try unchanged.
  run. destruct (pd !! "coords") as [cv|] eqn:Hc; [|unchanged].
  destruct (idx <? 0)%Z eqn:H0; [unchanged|].
  destruct cv as [| | | |s|l|d]; try unchanged; run;
    match goal with
    | |- context [(?n <=? idx)%Z] =>
        destruct (n <=? idx)%Z eqn:H1; [unchanged|]
    end.
  - (* a text in place of the list *)
    cbn [Py.index]. destruct (Py.position (len s) idx) as [k|];
      cbn [mbind option_bind]; [|unchanged].
    destruct (PyStr.get k s); unchanged.
  - (* the list *)
    apply Z.ltb_ge in H0. apply Z.leb_gt in H1.
    cbn [Py.index Py.pop].
    rewrite (position_in_range (length l) idx (conj H0 H1)).
    run. destruct (l !! Z.to_nat idx) as [c|] eqn:Hl; [|unchanged].
    destruct c as [| | | | | |c]; try unchanged.
    run. destruct confirm; [|unchanged].
    right. exists p, idx, pd, l, c. run. cbn [out_data out_events out_exit].
    repeat split; try reflexivity; try assumption.
    apply ends_refresh.
  - (* a dict in place of the list *)
    unchanged.
Qed.

(** [delete_profile] either leaves the dict and the files as they are
    or deletes the selected key. *)
Lemma delete_profile_cases sel confirm data :
  let o := delete_profile fs sel confirm data in
  (out_exit o <> Completed /\ leaves data o) \/
  (exists p v, sel = Some p /\ nonempty p = true /\ confirm = true /\
     data !! p = Some v /\
     o = Outcome (delete p data) (save_data fs (delete p data) data_path)
           Completed).
Proof.
  cbv zeta. unfold delete_profile.
  destruct sel as [p|]; cbn [Py.not_]; [|unchanged].
  destruct (nonempty p) eqn:Hp; cbn [negb from_option id]; [|unchanged].
  destruct confirm; cbn [negb]; [|unchanged].
  destruct (data !! p) as [v|] eqn:Hd; [|unchanged].
  right. exists p, v. repeat split; try reflexivity; assumption.
Qed.

Lemma delete_profile_removes p v data :
  nonempty p = true -> data !! p = Some v ->
  delete_profile fs (Some p) true data =
    Outcome (delete p data) (save_data fs (delete p data) data_path)
      Completed.
Proof.
  intros Hp Hd. unfold delete_profile. cbn [Py.not_]. rewrite Hp.
  cbn [negb from_option id]. rewrite Hd. reflexivity.
Qed.

Lemma add_profile_creates n data :
  nonempty n = true -> data !! strip n = None ->
  add_profile fs (Some n) data =
    Outcome (<[strip n := new_profile]> data)
      (save_data fs (<[strip n := new_profile]> data) data_path) Completed.
Proof.
  intros Hn Hd. unfold add_profile. cbn [Py.not_]. rewrite Hn.
  cbn [negb from_option id].
  destruct (decide (is_Some (data !! strip n))) as [[v Hv]|_];
    [congruence | reflexivity].
Qed.

Lemma add_coord_appends p name x y z data pd l xv yv zv :
  nonempty p = true -> nonempty (strip name) = true ->
  coord_value (strip x) = Some xv -> coord_value (strip y) = Some yv ->
  coord_value (strip z) = Some zv ->
  data !! p = Some (PyDict pd) -> pd !! "coords" = Some (PyList l) ->
  add_coord fs (Some p) name x y z data =
    let data' :=
      <[p := PyDict (<["coords" :=
                        PyList (l ++ [coord (strip name) xv yv zv])]> pd)]>
        data in
    Outcome data' (save_data fs data' data_path)
      (if forallb Spec.is_dict l then Completed else Raised AttributeError).
Proof.
  intros Hp Hn Hx Hy Hz Hd Hc. unfold add_coord. cbn [Py.not_].
  rewrite Hp. cbn [negb from_option id]. rewrite Hn, Hx, Hy, Hz. run.
  rewrite Hd. run. rewrite Hc. run. cbv zeta.
  rewrite ends_refresh, forallb_app. cbn [forallb coord Spec.is_dict].
  rewrite !andb_true_r. reflexivity.
Qed.

Lemma delete_selected_coord_removes p i data pd l c :
  nonempty p = true ->
  data !! p = Some (PyDict pd) -> pd !! "coords" = Some (PyList l) ->
  l !! i = Some (PyDict c) ->
  delete_selected_coord fs (Some p) (Some (Z.of_nat i)) true data =
    let data' := <[p := PyDict (<["coords" := PyList (delete i l)]> pd)]> data in
    Outcome data' (save_data fs data' data_path)
      (if forallb Spec.is_dict (delete i l) then Completed
       else Raised AttributeError).
Proof.
  intros Hp Hd Hc Hl. unfold delete_selected_coord. cbn [Py.not_].
  rewrite Hp. cbn [negb from_option id]. run. rewrite Hd. run. rewrite Hc.
  assert (Hi : i < length l) by (apply lookup_lt_is_Some; eauto).
  destruct (Z.ltb_spec (Z.of_nat i) 0) as [H0|H0]; [lia|]. run.
  destruct (Z.leb_spec (Z.of_nat (length l)) (Z.of_nat i)); [lia|].
  cbn [Py.index Py.pop].
  rewrite (position_in_range (length l) (Z.of_nat i)) by lia.
  rewrite Nat2Z.id. cbn [mbind option_bind]. rewrite Hl. run. cbv zeta.
  rewrite ends_refresh. reflexivity.
Qed.

Lemma save_seed_stores p seed_var data pd :
  nonempty p = true -> data !! p = Some (PyDict pd) ->
  save_seed fs (Some p) seed_var data =
    let data' := <[p := PyDict (<["seed" := PyStr (strip seed_var)]> pd)]> data in
    Outcome data'
      (save_data fs data' data_path ++ [showinfo "Saved" "Seed saved."])
      Completed.
Proof.
  intros Hp Hd. unfold save_seed. cbn [Py.not_]. rewrite Hp.
  cbn [negb from_option id]. run. rewrite Hd. reflexivity.
Qed.

(** Write-through, handler by handler. *)

Lemma saves_alone data :
  saves fs (Outcome data (save_data fs data data_path) Completed).
Proof. exists []. split; [symmetry; apply app_nil_r | reflexivity]. Qed.











End HandlerCases.

(** ** The files after a save *)

Section Files.
Import CoordManagerApp.







End Files.

(** ** The listbox *)

Section Listbox.
Import CoordManagerApp.
Variable lower : str -> str.

Lemma insert_by_lower_perm x l : Py.insert_by_lower lower x l ≡ₚ x :: l.
Proof.
  induction l as [|h t IH]; simpl; [reflexivity|].
  destruct (PyStr.leb (lower x) (lower h)); [reflexivity|].
  rewrite IH. apply Permutation_swap.
Qed.

Lemma sorted_by_lower_perm l : Py.sorted_by_lower lower l ≡ₚ l.
Proof.
  induction l as [|x t IH]; simpl; [reflexivity|].
  rewrite insert_by_lower_perm, IH. reflexivity.
Qed.

(** The keys of a dict, in whatever order, are its keys, each once. *)
Lemma keys_elem (data : gmap str pyval) ks k :
  Py.keys data ks -> k ∈ ks <-> is_Some (data !! k).
Proof.
  unfold Py.keys. intros ->. rewrite list_elem_of_fmap. split.
  - intros [[k' v] [-> H]]. apply elem_of_map_to_list in H. simpl. eauto.
  - intros [v H]. exists (k, v). split; [reflexivity|].
    apply elem_of_map_to_list, H.
Qed.

Lemma keys_no_dup (data : gmap str pyval) ks : Py.keys data ks -> NoDup ks.
Proof. unfold Py.keys. intros ->. apply NoDup_fst_map_to_list. Qed.

Lemma keys_length (data : gmap str pyval) ks :
  Py.keys data ks -> length ks = size data.
Proof.
  unfold Py.keys. intros ->. rewrite length_fmap. apply length_map_to_list.
Qed.

(** The listbox shows the keys of the dict. *)
Lemma listbox_shows_keys (data : gmap str pyval) ks k :
  Py.keys data ks ->
  k ∈ _refresh_profile_listbox lower ks <-> is_Some (data !! k).
Proof.
  intros H. unfold _refresh_profile_listbox. rewrite sorted_by_lower_perm.
  apply keys_elem, H.
Qed.

(** It shows each of them once. *)
Lemma listbox_no_dup (data : gmap str pyval) ks :
  Py.keys data ks -> NoDup (_refresh_profile_listbox lower ks).
Proof.
  intros H. unfold _refresh_profile_listbox. rewrite sorted_by_lower_perm.
  apply (keys_no_dup data), H.
Qed.

Lemma keys_empty : Py.keys ∅ [].
Proof. unfold Py.keys. rewrite map_to_list_empty. reflexivity. Qed.

(** A key that is new comes in front of the others, say. *)
Lemma keys_insert (data : gmap str pyval) ks k v :
  data !! k = None -> Py.keys data ks -> Py.keys (<[k := v]> data) (k :: ks).
Proof.
  unfold Py.keys. intros Hk H. rewrite (map_to_list_insert _ _ _ Hk).
  simpl. rewrite H. reflexivity.
Qed.

(** The one key of a dict of one entry. *)
Lemma keys_singleton k (v : pyval) ks : Py.keys (<[k := v]> ∅) ks -> ks = [k].
Proof.
  unfold Py.keys. rewrite insert_empty, map_to_list_singleton. simpl.
  apply Permutation_singleton_r.
Qed.

End Listbox.

(** ** The order of the listbox *)

Section ListboxOrder.
Import CoordManagerApp.
Variable lower : str -> str.

Lemma leb_refl a : PyStr.leb a a = true.
Proof.
  induction a as [|x a IH]; [reflexivity|]. simpl.
  rewrite N.ltb_irrefl. exact IH.
Qed.

Lemma leb_total a b : PyStr.leb a b = false -> PyStr.leb b a = true.
Proof.
  revert b. induction a as [|x a IH]; intros b; [discriminate|].
  destruct b as [|y b]; [reflexivity|]. simpl.
  destruct (N.ltb_spec x y); [discriminate|].
  destruct (N.ltb_spec y x); [reflexivity|].
  apply IH.
Qed.

Lemma leb_trans a b c :
  PyStr.leb a b = true -> PyStr.leb b c = true -> PyStr.leb a c = true.
Proof.
  revert b c. induction a as [|x a IH]; intros b c; [reflexivity|].
  destruct b as [|y b]; [discriminate|].
  destruct c as [|z c]; [intros _ H; discriminate H|].
  simpl.
  destruct (N.ltb_spec x y), (N.ltb_spec y x), (N.ltb_spec y z),
    (N.ltb_spec z y), (N.ltb_spec x z), (N.ltb_spec z x);
    try reflexivity; try discriminate; try lia.
  apply IH.
Qed.

Lemma insert_by_lower_hd x y l :
  Py.lower_le lower y x -> HdRel (Py.lower_le lower) y l ->
  HdRel (Py.lower_le lower) y (Py.insert_by_lower lower x l).
Proof.
  intros Hyx Hl. destruct l as [|h t]; simpl; [constructor; exact Hyx|].
  destruct (PyStr.leb (lower x) (lower h)).
  - constructor. exact Hyx.
  - constructor. inversion Hl. assumption.
Qed.

Lemma insert_by_lower_sorted x l :
  Sorted (Py.lower_le lower) l ->
  Sorted (Py.lower_le lower) (Py.insert_by_lower lower x l).
Proof.
  induction 1 as [|h t Ht IH Hh]; simpl; [repeat constructor|].
  destruct (PyStr.leb (lower x) (lower h)) eqn:E.
  - constructor; [constructor; assumption|]. constructor. exact E.
  - constructor; [exact IH|]. apply insert_by_lower_hd; [|exact Hh].
    apply leb_total, E.
Qed.

Lemma sorted_by_lower_sorted l :
  StronglySorted (Py.lower_le lower) (Py.sorted_by_lower lower l).
Proof.
  apply Sorted_StronglySorted.
  - intros a b c. unfold Py.lower_le. apply leb_trans.
  - induction l as [|x l IH]; simpl; [constructor|].
    apply insert_by_lower_sorted, IH.
Qed.

(** The sort is stable: the names that agree with [a] once in lower
    case stand in the order in which they were given. *)
Lemma insert_by_lower_stable a x l :
  filter (fun k => lower k = lower a) (Py.insert_by_lower lower x l)
  = filter (fun k => lower k = lower a) (x :: l).
Proof.
  induction l as [|h t IH]; [reflexivity|]. simpl.
  destruct (PyStr.leb (lower x) (lower h)) eqn:E; [reflexivity|].
  rewrite filter_cons, IH, !filter_cons.
  destruct (decide (lower h = lower a)) as [Hh|Hh];
    destruct (decide (lower x = lower a)) as [Hx|Hx]; try reflexivity.
  rewrite Hh, Hx, leb_refl in E. discriminate E.
Qed.

Lemma sorted_by_lower_stable a l :
  filter (fun k => lower k = lower a) (Py.sorted_by_lower lower l)
  = filter (fun k => lower k = lower a) l.
Proof.
  induction l as [|x l IH]; [reflexivity|]. simpl.
  rewrite insert_by_lower_stable, !filter_cons, IH. reflexivity.
Qed.

End ListboxOrder.

(** ** Stored names *)

Section Names.
Import PyStr CoordManagerApp.
Variable fs : files.

Lemma new_profile_named : Spec.profile_named new_profile = true.
Proof. reflexivity. Qed.

Lemma coord_is_named name xv yv zv :
  nonempty name = true -> Spec.coord_named (coord name xv yv zv) = true.
Proof.
  intros H. unfold Spec.coord_named, coord.
  rewrite lookup_insert_eq. exact H.
Qed.

Lemma names_insert (data : gmap str pyval) p v :
  Spec.names_nonempty data -> Spec.profile_named v = true ->
  Spec.names_nonempty (<[p := v]> data).
Proof. intros Hd Hv. apply map_Forall_insert_2; assumption. Qed.

Lemma names_lookup (data : gmap str pyval) p pd l :
  Spec.names_nonempty data ->
  data !! p = Some (PyDict pd) -> pd !! "coords" = Some (PyList l) ->
  forallb Spec.coord_named l = true.
Proof.
  intros Hd Hp Hc. specialize (map_Forall_lookup_1 _ _ _ _ Hd Hp).
  simpl. rewrite Hc. auto.
Qed.

Lemma add_profile_keeps_names name data :
  Spec.names_nonempty data ->
  Spec.names_nonempty (out_data (add_profile fs name data)).
Proof.
  intros Hd.
  destruct (add_profile_cases fs name data)
    as [[_ [-> _]] | (n & _ & _ & _ & ->)]; [exact Hd|].
  apply names_insert; [exact Hd | apply new_profile_named].
Qed.

Lemma save_seed_keeps_names profile seed_var data :
  Spec.names_nonempty data ->
  Spec.names_nonempty (out_data (save_seed fs profile seed_var data)).
Proof.
  intros Hd.
  destruct (save_seed_cases fs profile seed_var data)
    as [[_ [-> _]] | (p & pd & _ & _ & Hp & ->)]; [exact Hd|].
  apply names_insert; [exact Hd|].
  specialize (map_Forall_lookup_1 _ _ _ _ Hd Hp). simpl.
  rewrite lookup_insert_ne; [auto | discriminate].
Qed.

Lemma add_coord_keeps_names profile name x y z data :
  Spec.names_nonempty data ->
  Spec.names_nonempty (out_data (add_coord fs profile name x y z data)).
Proof.
  intros Hd.
  destruct (add_coord_cases fs profile name x y z data)
    as [[_ [-> _]] | (p & pd & l & xv & yv & zv & _ & _ & Hn & _ & _ & _
                      & Hp & Hc & -> & _)]; [exact Hd|].
  apply names_insert; [exact Hd|].
  unfold Spec.profile_named. rewrite lookup_insert_eq.
  rewrite forallb_app, (names_lookup data p pd l Hd Hp Hc). cbn [forallb].
  rewrite (coord_is_named _ xv yv zv Hn). reflexivity.
Qed.

Lemma delete_selected_coord_keeps_names profile sel confirm data :
  Spec.names_nonempty data ->
  Spec.names_nonempty
    (out_data (delete_selected_coord fs profile sel confirm data)).
Proof.
  intros Hd.
  destruct (delete_selected_coord_cases fs profile sel confirm data)
    as [[_ [-> _]] | (p & idx & pd & l & c & _ & _ & _ & _ & _ & Hp & Hc & _
                      & -> & _)]; [exact Hd|].
  apply names_insert; [exact Hd|].
  unfold Spec.profile_named. rewrite lookup_insert_eq.
  apply forallb_delete, (names_lookup data p pd l Hd Hp Hc).
Qed.

Lemma perform_keeps_names a data :
  Spec.names_nonempty data ->
  Spec.names_nonempty (out_data (perform fs a data)).
Proof.
  destruct a; simpl.
  - apply add_profile_keeps_names.
  - apply save_seed_keeps_names.
  - apply add_coord_keeps_names.
  - apply delete_selected_coord_keeps_names.
Qed.

End Names.

(** * The claims *)

Section Claims.
Import PyStr PyNum CoordManagerApp Sample.

(** Claim C7, for a profile whose name is not empty.  Whatever the
    dict holds, adding to the selected profile a coordinate with the name
    [""] and the fields ["1"], ["2"], ["3"] ends at the error box "Give
    the coordinate a name." (EmptyName), adding ["Home"] with the fields
    ["abc"], ["0"], ["0"] ends at the error box "X, Y and Z must be
    numbers." (InvalidNumber), and both leave the dict as it was: nothing
    is appended, nothing is saved. *)
Theorem add_coord_refusals_leave_data (fs : files) (p : str)
    (data : gmap str pyval) :
  nonempty p = true ->
  add_coord fs (Some p) "" "1" "2" "3" data =
    Outcome data [showerror "Validation" "Give the coordinate a name."]
      Returned
  /\ add_coord fs (Some p) "Home" "abc" "0" "0" data =
    Outcome data [showerror "Validation" "X, Y and Z must be numbers."]
      Returned.
Proof.
  intros Hp. unfold add_coord. cbn [Py.not_]. rewrite Hp.
  split; reflexivity.
Qed.

Lemma add_coord_refusals_leave_data_witness :
  add_coord no_files (Some "p") "" "1" "2" "3" two_profiles =
    Outcome two_profiles
      [showerror "Validation" "Give the coordinate a name."] Returned
  /\ add_coord no_files (Some "p") "Home" "abc" "0" "0" two_profiles =
    Outcome two_profiles
      [showerror "Validation" "X, Y and Z must be numbers."] Returned.
Proof.
  apply (add_coord_refusals_leave_data no_files "p" two_profiles).
  reflexivity.
Defined.

(** Claim C7, as it is stated, fails for the profile whose name is the
    empty text, which [add_profile] creates for a name of spaces.  That
    profile exists, and yet with it selected both calls end at "Select
    or create a profile first.": neither EmptyName nor InvalidNumber is
    what is signalled. *)
Lemma unnamed_profile_is_no_profile :
  out_data (add_profile no_files (Some " ") ∅) = <["" := new_profile]> ∅
  /\ (<["" := new_profile]> ∅ : gmap str pyval) !! "" = Some new_profile
  /\ add_coord no_files (Some "") "" "1" "2" "3" (<["" := new_profile]> ∅) =
       Outcome (<["" := new_profile]> ∅)
         [showinfo "No profile" "Select or create a profile first."] Returned
  /\ add_coord no_files (Some "") "Home" "abc" "0" "0"
       (<["" := new_profile]> ∅) =
       Outcome (<["" := new_profile]> ∅)
         [showinfo "No profile" "Select or create a profile first."] Returned.
Proof. vm_compute. repeat split; reflexivity. Qed.

(** Claim C8.  [load_data] on a path that does not exist returns the
    empty dict and shows nothing.  On a file whose JSON value is not an
    object, a JSON array for one, it shows the "Load error" warning that
    carries "Top-level JSON not a dict" and returns the empty dict, with
    which the application then starts. *)
Theorem load_data_missing_or_not_object (fs : files) (path : str) :
  (path_exists fs path = false -> load_data fs path = (∅, []))
  /\ (forall v, path_exists fs path = true ->
        open_json_load fs path = ReadJson v -> Spec.is_dict v = false ->
        load_data fs path =
          (∅, [showwarning "Load error"
                 ("Failed to load " +:+ path +:+ ":" +:+ nl
                  +:+ "Top-level JSON not a dict" +:+ nl
                  +:+ "Starting with empty data.")])).
Proof.
  unfold load_data. split.
  - intros ->. reflexivity.
  - intros v -> -> Hv. destruct v; try reflexivity. discriminate.
Qed.

(** A file that holds a JSON object is loaded as that dict, silently. *)
Lemma load_data_object (fs : files) (path : str)
    (data : gmap str pyval) :
  path_exists fs path = true ->
  open_json_load fs path = ReadJson (PyDict data) ->
  load_data fs path = (data, []).
Proof. unfold load_data. intros -> ->. reflexivity. Qed.

Lemma load_data_missing_or_not_object_witness :
  load_data no_files DATA_FILENAME = (∅, [])
  /\ load_data (some_files ∅) "list.json" =
       (∅, [showwarning "Load error"
              ("Failed to load list.json:" +:+ nl
               +:+ "Top-level JSON not a dict" +:+ nl
               +:+ "Starting with empty data.")]).
Proof.
  split.
  - apply (proj1 (load_data_missing_or_not_object no_files DATA_FILENAME)).
    reflexivity.
  - apply (proj2 (load_data_missing_or_not_object (some_files ∅) "list.json")
             (PyList [PyInt 1; PyInt 2])); reflexivity.
Defined.




(** Claim C5.  When the chosen file holds a JSON object [doc], an
    import answered "merge" gives a dict in which every entry of [doc]
    stands under its name, in place of the entry the dict had there, and
    in which every name that [doc] lacks keeps the entry it had; an
    import answered "replace" gives exactly [doc]. *)
Theorem import_json_merge_or_replace (fs : files) (path : str)
    (data doc : gmap str pyval) :
  nonempty path = true ->
  open_json_load fs path = ReadJson (PyDict doc) ->
  (forall k v, doc !! k = Some v ->
     out_data (import_json fs path true data) !! k = Some v)
  /\ (forall k, doc !! k = None ->
        out_data (import_json fs path true data) !! k = data !! k)
  /\ out_data (import_json fs path true data) = doc ∪ data
  /\ out_exit (import_json fs path true data) = Completed
  /\ out_data (import_json fs path false data) = doc
  /\ out_exit (import_json fs path false data) = Completed.
Proof.
  intros Hp Hdoc. unfold import_json. rewrite Hp, Hdoc. cbn [negb].
  rewrite andb_false_r, andb_true_r. unfold Py.nonempty_dict.
  destruct (Nat.eqb_spec (size data) 0) as [He|He];
    cbn [negb out_data out_exit].
  - apply map_size_empty_inv in He. subst data.
    repeat split; try reflexivity.
    + intros k v H. exact H.
    + intros k ->. rewrite lookup_empty. reflexivity.
    + symmetry. apply (right_id_L ∅ (∪)).
  - repeat split; try reflexivity.
    + intros k v H. apply lookup_union_Some_l, H.
    + intros k H. apply lookup_union_r, H.
Qed.

Lemma import_json_merge_or_replace_witness :
  out_data (import_json (some_files imported) "doc.json" true two_profiles)
    !! "p" = Some (profile "77" [mine])
  /\ out_data (import_json (some_files imported) "doc.json" true two_profiles)
       !! "q" = Some (profile "" [])
  /\ out_data (import_json (some_files imported) "doc.json" false two_profiles)
    = imported.
Proof.
  destruct (import_json_merge_or_replace (some_files imported) "doc.json"
              two_profiles imported eq_refl eq_refl)
    as (Hin & Hout & _ & _ & Hrep & _).
  split; [apply Hin; reflexivity|].
  split; [rewrite Hout; reflexivity|exact Hrep].
Defined.

(** Claim C6, for a profile whose name is not empty.  With no profile
    selected, or with a selected name that is not a key of the dict
    (NotFound), [delete_selected_coord] removes nothing: it returns at
    once, or stops on [KeyError].  With an index that is not a position
    of the profile's list, 5 on a list of two for one, it ends at the
    error box "Invalid selection index." (IndexOutOfRange) and the dict
    is as it was.  Otherwise, the entry at the index being a dict and the
    question answered yes, it removes the entry at that index and no
    other and saves the dict: the entries before it keep their positions,
    those after it move down by one, in the same order; the handler then
    goes through if the entries that are left are dicts, and ends on the
    [AttributeError] of its refresh if one of them is not.  An entry at
    the index that is not a dict is not removed: the handler stops on
    [AttributeError] before it asks.  And with the empty name selected
    it returns at once, whatever the dict holds under that name. *)
Theorem delete_selected_coord_by_index (fs : files) (p : str) (idx : Z)
    (data : gmap str pyval) :
  nonempty p = true ->
  (forall sel confirm,
     delete_selected_coord fs None sel confirm data = Outcome data [] Returned)
  /\ (forall confirm, data !! p = None ->
        delete_selected_coord fs (Some p) (Some idx) confirm data =
          Outcome data [] (Raised KeyError))
  /\ (forall pd l confirm,
        data !! p = Some (PyDict pd) -> pd !! "coords" = Some (PyList l) ->
        (idx < 0 \/ Z.of_nat (length l) <= idx)%Z ->
        delete_selected_coord fs (Some p) (Some idx) confirm data =
          Outcome data [showerror "Error" "Invalid selection index."]
            Returned)
  /\ (forall pd l c,
        data !! p = Some (PyDict pd) -> pd !! "coords" = Some (PyList l) ->
        (0 <= idx < Z.of_nat (length l))%Z ->
        l !! Z.to_nat idx = Some (PyDict c) ->
        let l' := delete (Z.to_nat idx) l in
        let data' := <[p := PyDict (<["coords" := PyList l']> pd)]> data in
        delete_selected_coord fs (Some p) (Some idx) true data =
          Outcome data' (save_data fs data' data_path)
            (if forallb Spec.is_dict l' then Completed
             else Raised AttributeError)
        /\ length l' = length l - 1
        /\ (forall j, j < Z.to_nat idx -> l' !! j = l !! j)
        /\ (forall j, Z.to_nat idx <= j -> l' !! j = l !! S j))
  /\ (forall pd l v confirm,
        data !! p = Some (PyDict pd) -> pd !! "coords" = Some (PyList l) ->
        (0 <= idx < Z.of_nat (length l))%Z ->
        l !! Z.to_nat idx = Some v -> Spec.is_dict v = false ->
        delete_selected_coord fs (Some p) (Some idx) confirm data =
          Outcome data [] (Raised AttributeError))
  /\ (forall sel confirm,
        delete_selected_coord fs (Some "") sel confirm data =
          Outcome data [] Returned).
Proof.
  intros Hp.
  assert (Hstart : forall confirm pd l,
    data !! p = Some (PyDict pd) -> pd !! "coords" = Some (PyList l) ->
    (0 <= idx < Z.of_nat (length l))%Z ->
    delete_selected_coord fs (Some p) (Some idx) confirm data =
      match c ← Py.index (PyList l) idx; Py.get c "name" with
      | Raise e => Outcome data [] (Raised e)
      | Ok _ =>
          if negb confirm then Outcome data [] Returned
          else
            match
              coords ← Py.pop (PyList l) idx;
              Py.setitem (PyDict pd) "coords" coords
            with
            | Raise e => Outcome data [] (Raised e)
            | Ok p' =>
                Outcome (<[p := p']> data)
                  (save_data fs (<[p := p']> data) data_path)
                  (ends (snd (_refresh_coords_tree p (<[p := p']> data))))
            end
      end).
  { intros confirm pd l Hd Hc Hr. unfold delete_selected_coord.
    cbn [Py.not_]. rewrite Hp. cbn [negb from_option id].
    cbn [Py.getitem mbind result_bind]. rewrite Hd.
    cbn [Py.getitem mbind result_bind]. rewrite Hc.
    destruct (Z.ltb_spec idx 0) as [H0|H0]; [lia|].
    cbn [Py.len mbind mret result_bind result_ret].
    destruct (Z.leb_spec (Z.of_nat (length l)) idx); [lia|]. reflexivity. }
  split; [reflexivity|]. split; [|split; [|split; [|split]]].
  - intros confirm Hd. unfold delete_selected_coord.
    cbn [Py.not_]. rewrite Hp. cbn [negb from_option id].
    cbn [Py.getitem mbind result_bind]. rewrite Hd. reflexivity.
  - intros pd l confirm Hd Hc Hr. unfold delete_selected_coord.
    cbn [Py.not_]. rewrite Hp. cbn [negb from_option id].
    cbn [Py.getitem mbind result_bind]. rewrite Hd.
    cbn [Py.getitem mbind result_bind]. rewrite Hc.
    destruct (Z.ltb_spec idx 0) as [H0|H0]; [reflexivity|].
    cbn [Py.len mbind mret result_bind result_ret].
    destruct (Z.leb_spec (Z.of_nat (length l)) idx); [reflexivity|lia].
  - intros pd l c Hd Hc Hr Hl. cbv zeta. split; [|split; [|split]].
    + rewrite (Hstart true pd l Hd Hc Hr).
      cbn [Py.index Py.pop]. rewrite (position_in_range _ _ Hr).
      cbn [mbind option_bind]. rewrite Hl.
      cbn [mbind result_bind Py.get Py.setitem negb].
      rewrite ends_refresh. reflexivity.
    + apply length_delete. eauto.
    + intros j Hj. apply list_lookup_delete_lt, Hj.
    + intros j Hj. apply list_lookup_delete_ge, Hj.
  - intros pd l v confirm Hd Hc Hr Hl Hv.
    rewrite (Hstart confirm pd l Hd Hc Hr).
    cbn [Py.index]. rewrite (position_in_range _ _ Hr).
    cbn [mbind option_bind]. rewrite Hl.
    destruct v; try reflexivity. discriminate Hv.
  - reflexivity.
Qed.

Lemma delete_selected_coord_by_index_witness :
  delete_selected_coord no_files (Some "r") (Some 0%Z) true two_profiles =
    Outcome two_profiles [] (Raised KeyError)
  /\ delete_selected_coord no_files (Some "p") (Some 5%Z) true two_profiles =
    Outcome two_profiles [showerror "Error" "Invalid selection index."]
      Returned
  /\ delete_selected_coord no_files (Some "p") (Some 0%Z) true two_profiles =
    Outcome (<["p" := profile "1234" [mine]]> two_profiles)
      (save_data no_files (<["p" := profile "1234" [mine]]> two_profiles)
         data_path)
      Completed
  /\ delete_selected_coord no_files (Some "p") (Some 0%Z) true malformed =
    Outcome (<["p" := profile "" [PyInt 5]]> malformed)
      (save_data no_files (<["p" := profile "" [PyInt 5]]> malformed)
         data_path)
      (Raised AttributeError)
  /\ delete_selected_coord no_files (Some "p") (Some 1%Z) true malformed =
    Outcome malformed [] (Raised AttributeError).
Proof.
  split; [|split; [|split; [|split]]].
  - apply (proj1 (proj2 (delete_selected_coord_by_index no_files "r" 0
                           two_profiles eq_refl))); reflexivity.
  - apply (proj1 (proj2 (proj2 (delete_selected_coord_by_index no_files "p" 5
                                  two_profiles eq_refl)))
             (<["seed" := PyStr "1234"]> (<["coords" := PyList [home; mine]]> ∅))
             [home; mine]); try reflexivity.
    right. vm_compute. discriminate.
  - refine (proj1
      (proj1 (proj2 (proj2 (proj2 (delete_selected_coord_by_index no_files "p"
                                     0 two_profiles eq_refl))))
         (<["seed" := PyStr "1234"]> (<["coords" := PyList [home; mine]]> ∅))
         [home; mine]
         (<["name" := PyStr "Home"]> (<["x" := PyInt 0]>
            (<["y" := PyInt 64]> (<["z" := PyInt 0]> ∅))))
         _ _ _ _)).
    + reflexivity.
    + reflexivity.
    + simpl. lia.
    + reflexivity.
  - refine (proj1
      (proj1 (proj2 (proj2 (proj2 (delete_selected_coord_by_index no_files "p"
                                     0 malformed eq_refl))))
         (<["seed" := PyStr ""]> (<["coords" := PyList [home; PyInt 5]]> ∅))
         [home; PyInt 5]
         (<["name" := PyStr "Home"]> (<["x" := PyInt 0]>
            (<["y" := PyInt 64]> (<["z" := PyInt 0]> ∅))))
         _ _ _ _)).
    + reflexivity.
    + reflexivity.
    + simpl. lia.
    + reflexivity.
  - apply (proj1 (proj2 (proj2 (proj2 (proj2
             (delete_selected_coord_by_index no_files "p" 1 malformed
                eq_refl)))))
             (<["seed" := PyStr ""]> (<["coords" := PyList [home; PyInt 5]]> ∅))
             [home; PyInt 5] (PyInt 5) true); try reflexivity.
    simpl. lia.
Defined.

(** Claim C6, as it is stated, fails for the profile whose name is the
    empty text: the profile is in the dict, the index 0 is a position of
    its list, and yet [delete_selected_coord] removes nothing, shows
    nothing and raises nothing. *)
Lemma unnamed_profile_keeps_its_coordinates :
  unnamed_profile !! "" = Some (profile "" [home])
  /\ delete_selected_coord no_files (Some "") (Some 0%Z) true unnamed_profile =
       Outcome unnamed_profile [] Returned.
Proof. vm_compute. split; reflexivity. Qed.



(** Claim C9.  If no coordinate stored in the dict has the empty text
    as its name, then none has after any sequence of profile creations,
    seed changes, coordinate additions and coordinate deletions:
    [add_coord] trims the name and stores nothing when it is empty. *)
Theorem run_keeps_names_nonempty (fs : files) (actions : list action)
    (data : gmap str pyval) :
  Spec.names_nonempty data -> Spec.names_nonempty (run fs actions data).
Proof.
  unfold run. revert data.
  induction actions as [|a actions IH]; intros data Hd; [exact Hd|].
  simpl. apply IH, perform_keeps_names, Hd.
Qed.

Lemma run_keeps_names_nonempty_witness :
  Spec.names_nonempty two_profiles
  /\ Spec.names_nonempty
       (run no_files
          [CreateProfile (Some "r");
           AddCoordinate (Some "r") "  Base " "1" "-2" "3.5";
           AddCoordinate (Some "p") "   " "1" "2" "3";
           SetSeed (Some "p") " 42 ";
           DeleteCoordinate (Some "p") (Some 0%Z) true]
          two_profiles).
Proof.
  assert (H : Spec.names_nonempty two_profiles).
  { unfold two_profiles. apply map_Forall_insert_2; [reflexivity|].
    apply map_Forall_insert_2; [reflexivity|]. apply map_Forall_empty. }
  split; [exact H|]. apply run_keeps_names_nonempty, H.
Defined.

Lemma coord_value_examples :
  coord_value "1.5" = Some (PyFloat one_and_a_half)
  /\ coord_value "64" = Some (PyInt 64)
  /\ coord_value "200" = Some (PyInt 200)
  /\ coord_value "-200" = Some (PyInt (-200))
  /\ coord_value "" = None
  /\ coord_value "abc" = None
  /\ coord_value "-" = None
  /\ coord_value arabic_123 = Some (PyInt 123).
Proof. vm_compute. repeat split; reflexivity. Qed.

(** Claim C2, as the code has it.  When [add_coord] stores a
    coordinate, that is when it goes through or changes the dict at all,
    each of the three fields is stored as an [int] exactly when its text,
    trimmed of surrounding whitespace, is an optional minus sign followed
    only by decimal digits, those of ASCII or of any other script, and as
    a [float] otherwise, each field on its own; so the fields ["1.5"],
    ["64"], ["200"] are stored as the float 1.5 and the ints 64 and
    200. *)
Theorem add_coord_kind_follows_trimmed_text (fs : files)
    (profile : option str) (name x y z : str)
    (data : gmap str pyval) :
  (out_exit (add_coord fs profile name x y z data) = Completed
   \/ out_data (add_coord fs profile name x y z data) <> data ->
   exists p pd l xv yv zv,
     profile = Some p /\ data !! p = Some (PyDict pd) /\
     pd !! "coords" = Some (PyList l) /\
     out_data (add_coord fs profile name x y z data) =
       <[p := PyDict (<["coords" :=
                         PyList (l ++ [coord (strip name) xv yv zv])]> pd)]>
         data /\
     Spec.kind_follows (strip x) xv = true /\
     Spec.kind_follows (strip y) yv = true /\
     Spec.kind_follows (strip z) zv = true)
  /\ (forall pd l,
        data !! "p" = Some (PyDict pd) -> pd !! "coords" = Some (PyList l) ->
        out_data (add_coord fs (Some "p") "Base" "1.5" "64" "200" data) =
          <["p" := PyDict (<["coords" :=
                   PyList (l ++ [coord "Base" (PyFloat one_and_a_half)
                                   (PyInt 64) (PyInt 200)])]> pd)]> data).
Proof.
  split.
  - intros Hstored.
    destruct (add_coord_cases fs profile name x y z data)
      as [[Hne [Hd _]] | (p & pd & l & xv & yv & zv & Hp & _ & _ & Hx & Hy
                          & Hz & Hd & Hc & Ho & _)].
    { destruct Hstored; contradiction. }
    exists p, pd, l, xv, yv, zv.
    repeat split; try assumption; apply coord_value_kind; assumption.
  - intros pd l Hd Hc.
    destruct coord_value_examples as (Hx & Hy & Hz & _).
    rewrite (add_coord_appends fs "p" "Base" "1.5" "64" "200" data pd l
               _ _ _ eq_refl eq_refl Hx Hy Hz Hd Hc).
    reflexivity.
Qed.

Lemma add_coord_kind_follows_trimmed_text_witness :
  (exists xv yv zv,
     out_data
       (add_coord no_files (Some "p") " Base " " 64" "-7 " "2.50" one_profile)
     = <["p" := PyDict (<["coords" := PyList ([] ++ [coord "Base" xv yv zv])]>
                          (<["seed" := PyStr ""]>
                             (<["coords" := PyList []]> ∅)))]> one_profile
     /\ Spec.kind_follows "64" xv = true
     /\ Spec.kind_follows "-7" yv = true
     /\ Spec.kind_follows "2.50" zv = true)
  /\ out_data (add_coord no_files (Some "p") "Base" "1.5" "64" "200" one_profile)
     = <["p" := PyDict (<["coords" :=
              PyList ([] ++ [coord "Base" (PyFloat one_and_a_half)
                               (PyInt 64) (PyInt 200)])]>
                          (<["seed" := PyStr ""]>
                             (<["coords" := PyList []]> ∅)))]> one_profile.
Proof.
  split.
  - destruct (proj1 (add_coord_kind_follows_trimmed_text no_files (Some "p")
                       " Base " " 64" "-7 " "2.50" one_profile)
                (or_introl eq_refl))
      as (p & pd & l & xv & yv & zv & Hp & Hd & Hc & Ho & Hx & Hy & Hz).
    injection Hp as <-. injection Hd as <-. injection Hc as <-.
    exists xv, yv, zv. split; [exact Ho|]. split; [exact Hx|].
    split; [exact Hy | exact Hz].
  - apply (proj2 (add_coord_kind_follows_trimmed_text no_files None "" "" ""
                    "" one_profile)
             (<["seed" := PyStr ""]> (<["coords" := PyList []]> ∅)) []);
      reflexivity.
Defined.

(** Claim C2, as it is stated, fails on a field with a space in front:
    the text [" 64"] is not a minus sign and digits only, so its kind
    should be fractional, and yet the value stored for it is the
    [int] 64. *)
Lemma untrimmed_text_is_stored_as_int :
  Spec.integral_text " 64" = false
  /\ Spec.kind_follows " 64" (PyInt 64) = false
  /\ out_exit (add_coord no_files (Some "p") "Base" " 64" "0" "0" one_profile)
     = Completed
  /\ out_data (add_coord no_files (Some "p") "Base" " 64" "0" "0" one_profile)
     = <["p" := profile "" [coord "Base" (PyInt 64) (PyInt 0) (PyInt 0)]]> ∅.
Proof. vm_compute. repeat split; reflexivity. Qed.

(** The digits of claim C2 are the decimal digits of every script, not
    those of ASCII alone: a field of the Arabic-Indic digits one, two and
    three is stored as the [int] 123. *)
Lemma arabic_digits_are_stored_as_int :
  Spec.ascii_integral_text arabic_123 = false
  /\ Spec.integral_text arabic_123 = true
  /\ out_exit (add_coord no_files (Some "p") "Base" arabic_123 "0" "0"
                 one_profile) = Completed
  /\ out_data (add_coord no_files (Some "p") "Base" arabic_123 "0" "0"
                 one_profile)
     = <["p" := profile "" [coord "Base" (PyInt 123) (PyInt 0) (PyInt 0)]]> ∅.
Proof. vm_compute. repeat split; reflexivity. Qed.

(** Claim C1, at the name [" "].  The dialog's answer is tested for
    emptiness before it is trimmed, so a name of spaces passes the test,
    is trimmed to the empty text, and a profile is inserted under the
    empty name and shown in the listbox.  Once selected there, its name
    counts as no selection: the profile can be neither filled nor
    deleted. *)
Theorem add_profile_blank_name_creates_profile :
  strip " " = ""
  /\ out_exit (add_profile no_files (Some " ") ∅) = Completed
  /\ out_data (add_profile no_files (Some " ") ∅) = <["" := new_profile]> ∅
  /\ (forall lower keys,
        Py.keys (out_data (add_profile no_files (Some " ") ∅)) keys ->
        _refresh_profile_listbox lower keys = [""])
  /\ delete_profile no_files (Some "") true (<["" := new_profile]> ∅) =
       Outcome (<["" := new_profile]> ∅)
         [showinfo "No selection" "Select a profile to delete."] Returned
  /\ add_coord no_files (Some "") "Home" "1" "2" "3" (<["" := new_profile]> ∅) =
       Outcome (<["" := new_profile]> ∅)
         [showinfo "No profile" "Select or create a profile first."] Returned.
Proof.
  split; [reflexivity|]. split; [reflexivity|]. split; [reflexivity|].
  split; [|split; reflexivity].
  intros lower keys H.
  change (out_data (add_profile no_files (Some " ") ∅))
    with (<["" := new_profile]> (∅ : gmap str pyval)) in H.
  rewrite (keys_singleton _ _ _ H). reflexivity.
Qed.

Lemma add_profile_blank_name_creates_profile_witness :
  _refresh_profile_listbox ascii_lower [""] = [""].
Proof.
  apply (proj1 (proj2 (proj2 (proj2 add_profile_blank_name_creates_profile)))
           ascii_lower [""]).
  apply keys_insert; [reflexivity | apply keys_empty].
Defined.

(** What claim C1 says of names that are not blank: the profile is
    inserted under the trimmed name, the listbox then shows that name,
    once, and a second creation under the same trimmed name ends at the
    error box "Profile already exists." *)
Lemma add_profile_listed_once (fs : files) (lower : str -> str)
    (n : str) (data : gmap str pyval) (keys : list str) :
  nonempty n = true -> data !! strip n = None ->
  let data' := out_data (add_profile fs (Some n) data) in
  Py.keys data' keys ->
  data' = <[strip n := new_profile]> data
  /\ strip n ∈ _refresh_profile_listbox lower keys
  /\ NoDup (_refresh_profile_listbox lower keys)
  /\ add_profile fs (Some n) data' =
       Outcome data' [showerror "Error" "Profile already exists."] Returned.
Proof.
  intros Hn Hd. cbv zeta.
  rewrite (add_profile_creates fs n data Hn Hd). cbn [out_data].
  intros Hk. split; [reflexivity|]. split; [|split].
  - apply (listbox_shows_keys lower _ _ _ Hk). rewrite lookup_insert_eq. eauto.
  - apply (listbox_no_dup lower _ _ Hk).
  - unfold add_profile. cbn [Py.not_]. rewrite Hn.
    cbn [negb from_option id].
    destruct (decide (is_Some (<[strip n := new_profile]> data !! strip n)))
      as [_|Hs]; [reflexivity|].
    exfalso. apply Hs. rewrite lookup_insert_eq. eauto.
Qed.

(** A cancelled dialog, an empty answer and a name in use leave the
    dict as it is. *)
Lemma add_profile_refusals (fs : files) (n : str)
    (data : gmap str pyval) :
  add_profile fs None data = Outcome data [] Returned
  /\ add_profile fs (Some "") data = Outcome data [] Returned
  /\ (nonempty n = true -> is_Some (data !! strip n) ->
      add_profile fs (Some n) data =
        Outcome data [showerror "Error" "Profile already exists."] Returned).
Proof.
  split; [reflexivity|]. split; [reflexivity|].
  intros Hn Hs. unfold add_profile. cbn [Py.not_]. rewrite Hn.
  cbn [negb from_option id].
  destruct (decide (is_Some (data !! strip n))); [reflexivity|contradiction].
Qed.

(** Claim C3, at the fields ["nan"] and ["inf"].  [float] reads both
    texts, so [add_coord] goes through and stores a not-a-number and an
    infinity where it should end at the error box "X, Y and Z must be
    numbers." *)
Theorem add_coord_stores_nan_and_inf :
  out_exit (add_coord no_files (Some "p") "Home" "nan" "inf" "0" one_profile)
    = Completed
  /\ out_data (add_coord no_files (Some "p") "Home" "nan" "inf" "0" one_profile)
     = <["p" := profile "" [coord "Home" (PyFloat S754_nan)
                              (PyFloat (S754_infinity false)) (PyInt 0)]]> ∅
  /\ out_events (add_coord no_files (Some "p") "Home" "nan" "inf" "0" one_profile)
     = [json_dump
          (<["p" := profile "" [coord "Home" (PyFloat S754_nan)
                                  (PyFloat (S754_infinity false)) (PyInt 0)]]> ∅)
          DATA_FILENAME].
Proof. vm_compute. repeat split; reflexivity. Qed.

(** What claim C3 says of the texts that are numbers, and of the empty
    text: integers with or without a minus sign are read as the [int]
    they denote, unless their digits are more than [int] reads, when they
    are refused; decimal texts are read as the nearest [float]; and the
    empty text and a text of letters are refused. *)
Lemma coord_value_accepts_numbers (neg : bool) (ip fp t : str) :
  (Spec.integral_text t = true ->
   (Z.of_nat (len (Spec.digits t)) <= int_max_str_digits)%Z ->
   coord_value t =
     Some (PyInt (if startswith_minus t
                  then (- Spec.number (Spec.digits t))%Z
                  else Spec.number (Spec.digits t))))
  /\ (Spec.integral_text t = true ->
      (int_max_str_digits < Z.of_nat (len (Spec.digits t)))%Z ->
      coord_value t = None)
  /\ (nonempty ip = true -> all_chars is_decimal ip = true ->
      nonempty fp = true -> all_chars is_decimal fp = true ->
      coord_value (Spec.decimal_text neg ip fp) =
        Some (PyFloat (decimal_to_double neg (Spec.number (ip +:+ fp))
                         (- Z.of_nat (len fp)))))
  /\ coord_value "" = None
  /\ coord_value "abc" = None.
Proof.
  split; [|split; [|split; [apply coord_value_decimal | split; reflexivity]]].
  - intros Ht Hl. rewrite (coord_value_integral t Ht).
    destruct (Z.leb_spec (Z.of_nat (len (Spec.digits t))) int_max_str_digits);
      [reflexivity | lia].
  - intros Ht Hl. rewrite (coord_value_integral t Ht).
    destruct (Z.leb_spec (Z.of_nat (len (Spec.digits t))) int_max_str_digits);
      [lia | reflexivity].
Qed.

End Claims.

(** * More of the code *)

(** ** Trimmed texts *)

Section Trimmed.
Import PyStr.
Variable p : N -> bool.








End Trimmed.

Section Strip.
Import PyStr.




End Strip.

(** ** The panel and the tree *)

Section Panel.
Import PyStr CoordManagerApp.

(** The row that the tree shows for a coordinate at position [i]. *)
Lemma tree_rows_of_dicts (l : list pyval) :
  Forall (fun c => Spec.is_dict c = true) l ->
  forall idx, exists rows,
    tree_rows idx l = (rows, None) /\ length rows = length l /\
    forall i c, l !! i = Some (PyDict c) ->
      rows !! i = Some (Row (idx + i) (default (PyStr "") (c !! "name"))
                          (default (PyStr "") (c !! "x"))
                          (default (PyStr "") (c !! "y"))
                          (default (PyStr "") (c !! "z"))).
Proof.
  induction 1 as [|c l Hc Hl IH]; intros idx.
  - exists []. repeat split. intros i c H. discriminate.
  - destruct c as [| | | | | |c]; try discriminate.
    destruct (IH (S idx)) as (rows & E & Hlen & Hrows).
    simpl. rewrite E. eexists. split; [reflexivity|].
    split; [simpl; rewrite Hlen; reflexivity|].
    intros [|i] c' H; simpl in H.
    + injection H as <-. simpl. rewrite Nat.add_0_r. reflexivity.
    + simpl. rewrite (Hrows i c' H). f_equal. f_equal. lia.
Qed.

(** Every row stands for a dict of the list, at the position that the
    row carries. *)
Lemma tree_rows_in (l : list pyval) idx rows e r :
  tree_rows idx l = (rows, e) -> r ∈ rows ->
  exists c, l !! (row_iid r - idx) = Some (PyDict c) /\ idx <= row_iid r.
Proof.
  revert idx rows e. induction l as [|c l IH]; intros idx rows e E Hr.
  - injection E as <- _. inversion Hr.
  - simpl in E. destruct c as [| | | | | |c];
      try (injection E as <- _; inversion Hr).
    destruct (tree_rows (S idx) l) as [rows' e'] eqn:E'.
    injection E as <- _. apply elem_of_cons in Hr as [-> | Hr].
    + exists c. simpl. rewrite Nat.sub_diag. split; [reflexivity|lia].
    + destruct (IH _ _ _ E' Hr) as (c' & Hc' & Hle). exists c'.
      split; [|lia].
      replace (row_iid r - idx) with (S (row_iid r - S idx)) by lia.
      exact Hc'.
Qed.

Lemma refresh_rows_in (data : gmap str pyval) p rows e r :
  _refresh_coords_tree p data = (rows, e) -> r ∈ rows ->
  exists pd l c, data !! p = Some (PyDict pd) /\
    pd !! "coords" = Some (PyList l) /\ l !! row_iid r = Some (PyDict c).
Proof.
  unfold _refresh_coords_tree. intros E Hr.
  destruct (data !! p) as [pv|] eqn:Hd; cbn [from_option id] in E.
  - destruct pv as [| | | | | |pd];
      try (cbn in E; injection E as <- _; inversion Hr).
    cbn [Py.get_default mbind result_bind] in E.
    destruct (pd !! "coords") as [cv|] eqn:Hc; cbn [from_option id] in E.
    + destruct cv as [| | | |s|l|m];
        try (cbn in E; injection E as <- _; inversion Hr).
      * (* a text *)
        cbn [Py.iter] in E. destruct (tree_rows_in _ _ _ _ _ E Hr) as (c & H & _).
        rewrite list_lookup_fmap in H.
        destruct (to_list s !! (row_iid r - 0)); inversion H.
      * (* the list *)
        cbn [Py.iter] in E. destruct (tree_rows_in _ _ _ _ _ E Hr) as (c & H & _).
        rewrite Nat.sub_0_r in H. exists pd, l, c. repeat split; assumption.
      * (* a dict *)
        cbn [Py.iter] in E. destruct (tree_rows_in _ _ _ _ _ E Hr) as (c & H & _).
        rewrite list_lookup_fmap in H.
        destruct ((map_to_list m).*1 !! (row_iid r - 0));
          inversion H.
    + cbn in E. injection E as <- _. inversion Hr.
  - cbn in E. injection E as <- _. inversion Hr.
Qed.

Lemma refresh_rows_of_dicts (data : gmap str pyval) (p : str)
    (pd : gmap str pyval) (l : list pyval) :
  data !! p = Some (PyDict pd) -> pd !! "coords" = Some (PyList l) ->
  Forall (fun c => Spec.is_dict c = true) l ->
  exists rows,
    _refresh_coords_tree p data = (rows, None) /\
    length rows = length l /\
    forall i c, l !! i = Some (PyDict c) ->
      rows !! i = Some (Row i (default (PyStr "") (c !! "name"))
                          (default (PyStr "") (c !! "x"))
                          (default (PyStr "") (c !! "y"))
                          (default (PyStr "") (c !! "z"))).
Proof.
  intros Hd Hc Hl. rewrite (refresh_of_list data p pd l Hd Hc).
  destruct (tree_rows_of_dicts l Hl 0) as (rows & E & Hlen & Hrows).
  exists rows. split; [exact E|]. split; [exact Hlen|exact Hrows].
Qed.

(** A refresh that raises nothing has found dicts only. *)
Lemma refresh_quiet (data : gmap str pyval) p pd l rows :
  data !! p = Some (PyDict pd) -> pd !! "coords" = Some (PyList l) ->
  _refresh_coords_tree p data = (rows, None) ->
  forallb Spec.is_dict l = true.
Proof.
  intros Hd Hc E. rewrite (refresh_of_list data p pd l Hd Hc) in E.
  pose proof (tree_rows_exit l 0) as H. rewrite E in H. simpl in H.
  destruct (forallb Spec.is_dict l); [reflexivity | discriminate H].
Qed.

End Panel.

(** ** Numbers and their digits *)

Section Zeros.
Import PyStr PyNum CoordManagerApp.

(** The number that decimal digits denote is zero only if each of them
    is a digit zero. *)
Lemma number_from_zero s : forall acc,
  all_chars is_decimal s = true -> (0 <= acc)%Z ->
  Spec.number_from acc s = 0%Z ->
  acc = 0%Z /\ all_chars Spec.is_zero s = true.
Proof.
  induction s as [|c r IH]; intros acc Hall Hacc Hv; [split; auto|].
  simpl in Hall, Hv. apply andb_true_iff in Hall as [Hc Hr].
  apply is_decimal_some in Hc as [d Hd]. rewrite Hd in Hv.
  cbn [default from_option id] in Hv.
  assert (Hpos : (0 <= 10 * acc + Z.of_N d)%Z) by lia.
  destruct (IH _ Hr Hpos Hv) as [H0 Hz].
  assert (acc = 0%Z /\ d = 0%N) as [-> ->] by lia.
  split; [reflexivity|]. simpl. unfold Spec.is_zero at 1. rewrite Hd.
  exact Hz.
Qed.

(** A plain number has no whitespace, so trimming leaves it as it
    is. *)
Lemma strip_of_integral_text t : Spec.integral_text t = true -> strip t = t.
Proof.
  intros Ht. apply strip_no_space.
  unfold Spec.integral_text, Spec.digits in Ht.
  apply andb_true_iff in Ht as [_ Hall].
  destruct (startswith_minus t) eqn:Hs.
  - destruct t as [|c r]; [discriminate Hs|]. simpl in Hs, Hall |- *.
    apply N.eqb_eq in Hs. subst c. rewrite (decimal_no_space r Hall).
    reflexivity.
  - apply decimal_no_space, Hall.
Qed.

Lemma strip_of_number_text t : Spec.number_text t -> strip t = t.
Proof.
  intros [[Ht _] | (neg & ip & fp & -> & _ & Hip & _ & Hfp)].
  - apply strip_of_integral_text, Ht.
  - apply strip_no_space. unfold Spec.decimal_text.
    assert (H : all_chars (fun c => negb (isspace_char c))
                  (ip +:+ Str "."%chr fp) = true).
    { rewrite all_chars_app. simpl.
      rewrite (decimal_no_space ip Hip), (decimal_no_space fp Hfp).
      reflexivity. }
    destruct neg; rewrite ?append_cons, ?append_nil; [simpl; rewrite H|];
      auto.
Qed.

Lemma number_text_read t :
  Spec.number_text t -> exists v, coord_value t = Some v.
Proof.
  intros [[Ht Hl] | (neg & ip & fp & -> & Hi & Hip & Hf & Hfp)].
  - rewrite (coord_value_integral t Ht).
    destruct (Z.leb_spec (Z.of_nat (len (Spec.digits t))) int_max_str_digits);
      [eauto | lia].
  - rewrite (coord_value_decimal neg ip fp Hi Hip Hf Hfp). eauto.
Qed.

End Zeros.

(** * Further properties *)

Section Further.
Import PyStr PyNum CoordManagerApp Sample.

(** Property X1.  Whatever the order in which the dict holds its keys,
    the listbox shows the keys of the dict and nothing else, each of them
    once, in an order in which every name stands before the names after
    it when both are brought to lower case; and names that agree once in
    lower case stand in the order in which the dict holds them. *)
Theorem listbox_lists_keys_in_order (lower : str -> str)
    (data : gmap str pyval) (keys : list str) :
  Py.keys data keys ->
  (forall k, k ∈ _refresh_profile_listbox lower keys <-> is_Some (data !! k))
  /\ NoDup (_refresh_profile_listbox lower keys)
  /\ length (_refresh_profile_listbox lower keys) = size data
  /\ StronglySorted (Py.lower_le lower) (_refresh_profile_listbox lower keys)
  /\ (forall a,
        filter (fun k => lower k = lower a)
          (_refresh_profile_listbox lower keys)
        = filter (fun k => lower k = lower a) keys).
Proof.
  intros Hk.
  split; [intros k; apply (listbox_shows_keys lower data keys k Hk)|].
  split; [apply (listbox_no_dup lower data keys Hk)|].
  split; [|split; [apply sorted_by_lower_sorted|]].
  - unfold _refresh_profile_listbox.
    rewrite (Permutation_length (sorted_by_lower_perm lower _)).
    apply (keys_length data), Hk.
  - intros a. apply sorted_by_lower_stable.
Qed.

Lemma listbox_lists_keys_in_order_witness :
  _refresh_profile_listbox ascii_lower ["q"; "P"; "p"] = ["P"; "p"; "q"]
  /\ length (_refresh_profile_listbox ascii_lower ["q"; "P"; "p"]) = 3
  /\ filter (fun k => ascii_lower k = ascii_lower "p")
       (_refresh_profile_listbox ascii_lower ["q"; "P"; "p"])
     = filter (fun k => ascii_lower k = ascii_lower "p") ["q"; "P"; "p"].
Proof.
  split; [reflexivity|].
  destruct (listbox_lists_keys_in_order ascii_lower
              (<["q" := new_profile]>
                 (<["P" := new_profile]> (<["p" := new_profile]> ∅)))
              ["q"; "P"; "p"]) as (_ & _ & Hlen & _ & Hst).
  - repeat (apply keys_insert; [reflexivity|]). apply keys_empty.
  - split; [exact Hlen | apply Hst].
Defined.

(** Property X3.  Creating a profile under a name that is not blank and
    not in use, and then deleting the profile of that trimmed name, gives
    back the dict as it was. *)
Theorem add_then_delete_profile (fs : files) (n : str)
    (data : gmap str pyval) :
  nonempty (strip n) = true -> data !! strip n = None ->
  out_exit (add_profile fs (Some n) data) = Completed
  /\ out_exit (delete_profile fs (Some (strip n)) true
                 (out_data (add_profile fs (Some n) data))) = Completed
  /\ out_data (delete_profile fs (Some (strip n)) true
                 (out_data (add_profile fs (Some n) data))) = data.
Proof.
  intros Hs Hd.
  assert (Hn : nonempty n = true).
  { destruct n; [discriminate Hs | reflexivity]. }
  rewrite (add_profile_creates fs n data Hn Hd). cbn [out_exit out_data].
  rewrite (delete_profile_removes fs (strip n) new_profile _ Hs
             (lookup_insert_eq _ _ _)).
  cbn [out_exit out_data]. repeat split.
  apply delete_insert_id, Hd.
Qed.

Lemma add_then_delete_profile_witness :
  out_data (delete_profile no_files (Some "Nether") true
              (out_data (add_profile no_files (Some " Nether ") two_profiles)))
  = two_profiles.
Proof.
  apply (add_then_delete_profile no_files " Nether " two_profiles);
    reflexivity.
Defined.

(** Property X4.  [delete_profile] changes the dict only when a name
    that is not empty is selected, the question is answered yes and the
    name is a key; it then removes this key and no other.  On a selected
    name that is not a key it stops on [KeyError]; with no selection, and
    with the empty name selected, whatever the dict holds under it, it
    shows "Select a profile to delete."; the dict is as it was. *)
Theorem delete_profile_removes_selected_only (fs : files)
    (sel : option str) (confirm : bool) (data : gmap str pyval) :
  ((out_exit (delete_profile fs sel confirm data) <> Completed
    /\ out_data (delete_profile fs sel confirm data) = data)
   \/ (exists p, sel = Some p /\ nonempty p = true /\ confirm = true /\
         is_Some (data !! p) /\
         out_exit (delete_profile fs sel confirm data) = Completed /\
         out_data (delete_profile fs sel confirm data) = delete p data /\
         out_data (delete_profile fs sel confirm data) !! p = None /\
         forall q, q <> p ->
           out_data (delete_profile fs sel confirm data) !! q = data !! q))
  /\ (forall p, nonempty p = true -> data !! p = None ->
        delete_profile fs (Some p) true data
          = Outcome data [] (Raised KeyError))
  /\ delete_profile fs None confirm data =
       Outcome data [showinfo "No selection" "Select a profile to delete."]
         Returned
  /\ delete_profile fs (Some "") confirm data =
       Outcome data [showinfo "No selection" "Select a profile to delete."]
         Returned.
Proof.
  split; [|split; [|split; reflexivity]].
  - destruct (delete_profile_cases fs sel confirm data)
      as [[H [E _]] | (p & v & -> & Hp & -> & Hd & ->)]; [left; auto|].
    right. exists p. cbn [out_exit out_data]. repeat split; eauto.
    + apply lookup_delete_eq.
    + intros q Hq. apply lookup_delete_ne. congruence.
  - intros p Hp Hd. unfold delete_profile. cbn [Py.not_]. rewrite Hp.
    cbn [negb from_option id]. rewrite Hd. reflexivity.
Qed.

Lemma delete_profile_removes_selected_only_witness :
  delete_profile no_files (Some "r") true two_profiles
    = Outcome two_profiles [] (Raised KeyError).
Proof.
  apply (proj1 (proj2 (delete_profile_removes_selected_only no_files None true
                         two_profiles)) "r"); reflexivity.
Defined.

(** Property X5.  A [save_seed] that goes through stores the trimmed
    text of the entry as the seed of the selected profile, creating the
    field if the profile lacks it, and leaves the other fields of the
    profile and all the other profiles as they were. *)
Theorem save_seed_stores_trimmed_seed (fs : files)
    (profile : option str) (seed_var : str)
    (data : gmap str pyval) :
  out_exit (save_seed fs profile seed_var data) = Completed ->
  exists p pd pd',
    profile = Some p /\ data !! p = Some (PyDict pd) /\
    out_data (save_seed fs profile seed_var data) !! p = Some (PyDict pd') /\
    pd' !! "seed" = Some (PyStr (strip seed_var)) /\
    (forall k, k <> "seed" -> pd' !! k = pd !! k) /\
    (forall q, q <> p ->
       out_data (save_seed fs profile seed_var data) !! q = data !! q).
Proof.
  intros Hexit.
  destruct (save_seed_cases fs profile seed_var data)
    as [[Hne _] | (p & pd & -> & Hp & Hd & Ho)]; [contradiction|].
  exists p, pd, (<["seed" := PyStr (strip seed_var)]> pd). rewrite Ho.
  repeat split; try assumption.
  - apply lookup_insert_eq.
  - apply lookup_insert_eq.
  - intros k Hk. apply lookup_insert_ne. congruence.
  - intros q Hq. apply lookup_insert_ne. congruence.
Qed.

Lemma save_seed_stores_trimmed_seed_witness :
  exists pd',
    out_data (save_seed no_files (Some "q") "  -42 " two_profiles) !! "q"
      = Some (PyDict pd')
    /\ pd' !! "seed" = Some (PyStr "-42")
    /\ out_data (save_seed no_files (Some "q") "  -42 " two_profiles) !! "p"
       = two_profiles !! "p".
Proof.
  destruct (save_seed_stores_trimmed_seed no_files (Some "q") "  -42 "
              two_profiles eq_refl)
    as (p & pd & pd' & Hp & _ & Ho & Hs & _ & Hq).
  injection Hp as <-. exists pd'. split; [exact Ho|]. split; [exact Hs|].
  apply Hq. discriminate.
Defined.

(** Property X6.  Saving the same seed a second time changes nothing:
    whatever the selection, the text and the dict, the dict after two
    [save_seed] in a row is the dict after the first. *)
Theorem save_seed_twice (fs : files) (profile : option str)
    (seed_var : str) (data : gmap str pyval) :
  out_data (save_seed fs profile seed_var
              (out_data (save_seed fs profile seed_var data)))
  = out_data (save_seed fs profile seed_var data).
Proof.
  destruct (save_seed_cases fs profile seed_var data)
    as [[_ [E _]] | (p & pd & -> & Hp & Hd & Ho)].
  - rewrite E. exact E.
  - rewrite Ho.
    rewrite (save_seed_stores fs p seed_var _ _ Hp (lookup_insert_eq _ _ _)).
    cbn [out_data]. rewrite !insert_insert_eq. reflexivity.
Qed.

(** Property X7.  After a [save_seed] that goes through, selecting the
    profile shows the trimmed text in the seed entry, whatever the panel
    showed before. *)
Theorem save_seed_then_select (fs : files) (profile : option str)
    (seed_var : str) (data : gmap str pyval) (shown : display) :
  out_exit (save_seed fs profile seed_var data) = Completed ->
  shown_seed (fst (on_profile_select profile
                     (out_data (save_seed fs profile seed_var data)) shown))
  = PyStr (strip seed_var).
Proof.
  intros Hexit.
  destruct (save_seed_cases fs profile seed_var data)
    as [[Hne _] | (p & pd & -> & Hp & Hd & Ho)]; [contradiction|].
  rewrite Ho. unfold on_profile_select. cbn [Py.not_]. rewrite Hp.
  cbn [negb from_option id]. rewrite lookup_insert_eq.
  cbn [from_option id Py.get_default]. rewrite lookup_insert_eq.
  cbn [from_option id].
  destruct (_refresh_coords_tree p _). reflexivity.
Qed.

Lemma save_seed_then_select_witness :
  shown_seed (fst (on_profile_select (Some "p")
                     (out_data (save_seed no_files (Some "p") " 7 " two_profiles))
                     stale))
  = PyStr "7".
Proof.
  apply (save_seed_then_select no_files (Some "p") " 7 " two_profiles stale).
  reflexivity.
Defined.

(** Property X8.  After an [add_coord] that goes through, deleting the
    row at the position that was the length of the list before gives
    back the dict as it was: the new coordinate went to the end of the
    list and nothing else changed. *)
Theorem add_then_delete_coord (fs : files) (profile : option str)
    (name x y z : str) (data : gmap str pyval) :
  out_exit (add_coord fs profile name x y z data) = Completed ->
  exists p pd l,
    profile = Some p /\ data !! p = Some (PyDict pd) /\
    pd !! "coords" = Some (PyList l) /\
    out_exit (delete_selected_coord fs profile (Some (Z.of_nat (length l)))
                true (out_data (add_coord fs profile name x y z data)))
      = Completed /\
    out_data (delete_selected_coord fs profile (Some (Z.of_nat (length l)))
                true (out_data (add_coord fs profile name x y z data)))
      = data.
Proof.
  intros Hexit.
  destruct (add_coord_cases fs profile name x y z data)
    as [[Hne _] | (p & pd & l & xv & yv & zv & -> & Hp & _ & _ & _ & _
                   & Hd & Hc & Ho & _ & Hx)]; [contradiction|].
  rewrite Hx in Hexit.
  destruct (forallb Spec.is_dict l) eqn:Hall; [|discriminate Hexit].
  exists p, pd, l. rewrite Ho. unfold coord.
  split; [reflexivity|]. split; [exact Hd|]. split; [exact Hc|].
  set (c := <["name" := PyStr (strip name)]> (<["x" := xv]>
              (<["y" := yv]> (<["z" := zv]> ∅)))).
  assert (Hmid : (l ++ [PyDict c]) !! length l = Some (PyDict c))
    by (apply list_lookup_middle; reflexivity).
  rewrite (delete_selected_coord_removes fs p (length l) _ _ _ c Hp
             (lookup_insert_eq _ _ _) (lookup_insert_eq _ _ _) Hmid).
  cbv zeta. cbn [out_exit out_data].
  rewrite (delete_middle l []), app_nil_r, Hall. split; [reflexivity|].
  rewrite !insert_insert_eq, (insert_id pd "coords" _ Hc).
  apply insert_id, Hd.
Qed.

Lemma add_then_delete_coord_witness :
  out_data (delete_selected_coord no_files (Some "p") (Some 2%Z) true
              (out_data (add_coord no_files (Some "p") "Base" "1" "2" "3"
                           two_profiles)))
  = two_profiles.
Proof.
  destruct (add_then_delete_coord no_files (Some "p") "Base" "1" "2" "3"
              two_profiles eq_refl)
    as (p & pd & l & Hp & Hd & Hc & _ & Ho).
  injection Hp as <-. injection Hd as <-. injection Hc as <-. exact Ho.
Defined.



(** Property X10.  [load_data] never fails and shows at most one box.
    When the file exists and cannot be read as JSON it shows the "Load
    error" warning with the text of the exception and returns the empty
    dict; whenever it shows a box the dict it returns is empty; and a
    dict that is not empty is returned only for a file that exists and
    holds exactly that JSON object, without any box. *)
Theorem load_data_never_fails (fs : files) (path : str) :
  (forall e, path_exists fs path = true ->
     open_json_load fs path = ReadError e ->
     load_data fs path =
       (∅, [showwarning "Load error"
              ("Failed to load " +:+ path +:+ ":" +:+ nl +:+ e +:+ nl
               +:+ "Starting with empty data.")]))
  /\ (snd (load_data fs path) <> [] -> fst (load_data fs path) = ∅)
  /\ (fst (load_data fs path) <> ∅ ->
      path_exists fs path = true
      /\ open_json_load fs path = ReadJson (PyDict (fst (load_data fs path)))
      /\ snd (load_data fs path) = [])
  /\ length (snd (load_data fs path)) <= 1.
Proof.
  unfold load_data. split; [intros e -> ->; reflexivity|].
  assert (K : forall (d : gmap str pyval) (ev : list event),
             (ev = [] \/ (d = ∅ /\ length ev <= 1)) ->
             (d <> ∅ ->
              path_exists fs path = true
              /\ open_json_load fs path = ReadJson (PyDict d)) ->
             (snd (d, ev) <> [] -> fst (d, ev) = ∅)
             /\ (fst (d, ev) <> ∅ ->
                 path_exists fs path = true
                 /\ open_json_load fs path = ReadJson (PyDict (fst (d, ev)))
                 /\ snd (d, ev) = [])
             /\ length (snd (d, ev)) <= 1).
  { intros d ev Hev Hd. cbn [fst snd]. split; [|split].
    - intros Hne. destruct Hev as [->|[-> _]]; [contradiction|reflexivity].
    - intros Hne. destruct (Hd Hne) as [H1 H2].
      destruct Hev as [->|[-> _]]; [auto|contradiction].
    - destruct Hev as [->|[_ H]]; [simpl; lia|exact H]. }
  destruct (path_exists fs path) eqn:Ex.
  - destruct (open_json_load fs path) as [e|v] eqn:Er.
    + apply K; [right; split; [reflexivity|simpl; lia]|].
      intros H. contradiction.
    + destruct v; try (apply K; [right; split; [reflexivity|simpl; lia]|];
                       intros H; contradiction).
      apply K; [left; reflexivity|]. intros _. split; reflexivity.
  - apply K; [left; reflexivity|]. intros H. contradiction.
Qed.

Lemma load_data_never_fails_witness :
  load_data broken_files DATA_FILENAME =
    (∅, [showwarning "Load error"
           ("Failed to load cords-data.json:" +:+ nl
            +:+ "Expecting value: line 1 column 1 (char 0)" +:+ nl
            +:+ "Starting with empty data.")])
  /\ open_json_load (some_files imported) "doc.json"
     = ReadJson (PyDict (fst (load_data (some_files imported) "doc.json"))).
Proof.
  split.
  - apply (proj1 (load_data_never_fails broken_files DATA_FILENAME));
      reflexivity.
  - apply (proj1 (proj2 (proj2 (load_data_never_fails (some_files imported)
                                  "doc.json")))).
    intros H. apply (f_equal (fun m => m !! "p")) in H. discriminate H.
Defined.

(** Property X11.  An import goes through exactly when a file was
    chosen and it holds a JSON object.  A cancelled dialog changes
    nothing and shows nothing; a file that cannot be read, or that holds
    a JSON value other than an object, ends at an "Import error" box and
    the dict is as it was. *)
Theorem import_json_goes_through_iff (fs : files) (path : str)
    (merge : bool) (data : gmap str pyval) :
  (out_exit (import_json fs path merge data) = Completed <->
   nonempty path = true
   /\ exists doc, open_json_load fs path = ReadJson (PyDict doc))
  /\ import_json fs "" merge data = Outcome data [] Returned
  /\ (forall e, nonempty path = true ->
      open_json_load fs path = ReadError e ->
      import_json fs path merge data =
        Outcome data
          [showerror "Import error" ("Failed to import:" +:+ nl +:+ e)]
          Returned)
  /\ (forall v, nonempty path = true ->
      open_json_load fs path = ReadJson v -> Spec.is_dict v = false ->
      import_json fs path merge data =
        Outcome data
          [showerror "Import error"
             "Imported JSON must be an object mapping profile names to profile data."]
          Returned).
Proof.
  unfold import_json. split; [|split; [reflexivity|split]].
  - destruct (nonempty path); cbn [negb].
    + destruct (open_json_load fs path) as [e|v].
      * split; [intros H; discriminate H|]. intros [_ [doc H]]. discriminate H.
      * destruct v; cbn [out_exit];
          try (split; [intros H; discriminate H
                      | intros [_ [doc H]]; discriminate H]).
        split; [eauto | reflexivity].
    + split; [intros H; discriminate H | intros [H _]; discriminate H].
  - intros e -> ->. reflexivity.
  - intros v -> -> Hv. destruct v; try reflexivity. discriminate Hv.
Qed.

Lemma import_json_goes_through_iff_witness :
  import_json no_files "lost.json" true two_profiles =
    Outcome two_profiles
      [showerror "Import error"
         ("Failed to import:" +:+ nl +:+ "No such file or directory")]
      Returned
  /\ import_json (some_files imported) "list.json" false two_profiles =
    Outcome two_profiles
      [showerror "Import error"
         "Imported JSON must be an object mapping profile names to profile data."]
      Returned.
Proof.
  split.
  - apply (proj1 (proj2 (proj2 (import_json_goes_through_iff no_files
                                  "lost.json" true two_profiles))));
      reflexivity.
  - apply (proj2 (proj2 (proj2 (import_json_goes_through_iff
                                  (some_files imported) "list.json" false
                                  two_profiles)))
             (PyList [PyInt 1; PyInt 2])); reflexivity.
Defined.

Lemma import_json_merges (fs : files) (path : str)
    (data doc : gmap str pyval) :
  nonempty path = true -> open_json_load fs path = ReadJson (PyDict doc) ->
  out_data (import_json fs path true data) = doc ∪ data
  /\ out_data (import_json fs path false data) = doc.
Proof.
  intros Hp Hdoc. unfold import_json. rewrite Hp, Hdoc. cbn [negb].
  rewrite andb_false_r, andb_true_r. unfold Py.nonempty_dict.
  destruct (Nat.eqb_spec (size data) 0) as [He|He]; cbn [negb out_data].
  - apply map_size_empty_inv in He. subst data.
    split; [|reflexivity]. symmetry. apply (right_id_L ∅ (∪)).
  - split; reflexivity.
Qed.

(** Property X12.  Importing the same file again with the answer
    "merge" changes nothing more; a merge never removes a profile: the
    names after it are those of the file together with those the dict
    had; and after a "replace" the listbox shows exactly the names of
    the file. *)
Theorem import_json_merge_again (fs : files) (path : str)
    (data doc : gmap str pyval) :
  nonempty path = true -> open_json_load fs path = ReadJson (PyDict doc) ->
  out_data (import_json fs path true
              (out_data (import_json fs path true data)))
    = out_data (import_json fs path true data)
  /\ dom (out_data (import_json fs path true data)) = dom doc ∪ dom data
  /\ (forall lower keys k,
        Py.keys (out_data (import_json fs path false data)) keys ->
        k ∈ _refresh_profile_listbox lower keys <-> is_Some (doc !! k)).
Proof.
  intros Hp Hdoc.
  destruct (import_json_merges fs path data doc Hp Hdoc) as [Hm Hr].
  destruct (import_json_merges fs path (doc ∪ data) doc Hp Hdoc) as [Hm' _].
  rewrite Hm, Hm', Hr. split; [|split].
  - rewrite (assoc_L (∪)), (idemp_L (∪) doc). reflexivity.
  - apply dom_union_L.
  - intros lower keys k. apply listbox_shows_keys.
Qed.

Lemma import_json_merge_again_witness :
  out_data (import_json (some_files imported) "doc.json" true
              (out_data (import_json (some_files imported) "doc.json" true
                           two_profiles)))
  = out_data (import_json (some_files imported) "doc.json" true two_profiles).
Proof.
  apply (import_json_merge_again (some_files imported) "doc.json" two_profiles
           imported); reflexivity.
Defined.

(** Property X13.  For a profile whose list holds dicts only, the
    refreshed tree has one row for each coordinate, in the order of the
    list; the row at position [i] carries [i] as its identifier and shows
    the four fields of the coordinate at [i], an empty text standing for
    a field that the coordinate lacks.  For a name that is not a key, and
    for a profile without a list, the tree is empty and nothing is
    raised. *)
Theorem refresh_coords_tree_rows (data : gmap str pyval) (p : str) :
  (forall pd l, data !! p = Some (PyDict pd) ->
     pd !! "coords" = Some (PyList l) ->
     Forall (fun c => Spec.is_dict c = true) l ->
     exists rows,
       _refresh_coords_tree p data = (rows, None) /\
       length rows = length l /\
       forall i c, l !! i = Some (PyDict c) ->
         rows !! i = Some (Row i (default (PyStr "") (c !! "name"))
                             (default (PyStr "") (c !! "x"))
                             (default (PyStr "") (c !! "y"))
                             (default (PyStr "") (c !! "z"))))
  /\ (data !! p = None -> _refresh_coords_tree p data = ([], None))
  /\ (forall pd, data !! p = Some (PyDict pd) -> pd !! "coords" = None ->
      _refresh_coords_tree p data = ([], None)).
Proof.
  split; [apply refresh_rows_of_dicts|].
  unfold _refresh_coords_tree. split.
  - intros ->. reflexivity.
  - intros pd -> Hc. cbn [from_option id Py.get_default mbind result_bind].
    rewrite Hc. reflexivity.
Qed.

Lemma refresh_coords_tree_rows_witness :
  (exists rows,
     _refresh_coords_tree "p" two_profiles = (rows, None) /\
     length rows = 2 /\
     rows !! 1 = Some (Row 1 (PyStr "Mine") (PyInt 10) (PyInt 12)
                         (PyInt (-30))))
  /\ _refresh_coords_tree "r" two_profiles = ([], None).
Proof.
  split.
  - destruct (proj1 (refresh_coords_tree_rows two_profiles "p")
                (<["seed" := PyStr "1234"]>
                   (<["coords" := PyList [home; mine]]> ∅))
                [home; mine] eq_refl eq_refl)
      as (rows & E & Hlen & Hrows).
    + repeat constructor.
    + exists rows. split; [exact E|]. split; [exact Hlen|].
      rewrite (Hrows 1 (<["name" := PyStr "Mine"]> (<["x" := PyInt 10]>
                          (<["y" := PyInt 12]> (<["z" := PyInt (-30)]> ∅))))
                 eq_refl).
      reflexivity.
  - apply (proj1 (proj2 (refresh_coords_tree_rows two_profiles "r"))).
    reflexivity.
Defined.

(** Property X14.  A row of the refreshed tree can be deleted: with a
    profile of a name that is not empty selected, and the identifier of
    any row that the tree shows for that profile, [delete_selected_coord]
    answered yes never ends at "Invalid selection index.": it removes the
    coordinate at the position of that row and saves the dict.  It then
    goes through if the entries that are left are dicts, which they are
    when the refresh that showed the row raised nothing, and ends on the
    [AttributeError] of its own refresh if not. *)
Theorem tree_row_can_be_deleted (fs : files) (p : str)
    (data : gmap str pyval) (rows : list row) (e : option pyexn)
    (r : row) :
  nonempty p = true ->
  _refresh_coords_tree p data = (rows, e) -> r ∈ rows ->
  exists pd l,
    data !! p = Some (PyDict pd) /\ pd !! "coords" = Some (PyList l) /\
    row_iid r < length l /\
    delete_selected_coord fs (Some p) (Some (Z.of_nat (row_iid r))) true data
    = Outcome
        (<[p := PyDict (<["coords" := PyList (delete (row_iid r) l)]> pd)]>
           data)
        (save_data fs
           (<[p := PyDict (<["coords" := PyList (delete (row_iid r) l)]> pd)]>
              data) DATA_FILENAME)
        (if forallb Spec.is_dict (delete (row_iid r) l) then Completed
         else Raised AttributeError) /\
    (e = None -> forallb Spec.is_dict (delete (row_iid r) l) = true).
Proof.
  intros Hp E Hr.
  destruct (refresh_rows_in data p rows e r E Hr) as (pd & l & c & Hd & Hc & Hl).
  exists pd, l. split; [exact Hd|]. split; [exact Hc|].
  split; [apply lookup_lt_is_Some; eauto|]. split.
  - apply (delete_selected_coord_removes fs p (row_iid r) data pd l c Hp Hd Hc
             Hl).
  - intros ->. apply forallb_delete, (refresh_quiet data p pd l rows Hd Hc E).
Qed.

Lemma tree_row_can_be_deleted_witness :
  out_exit (delete_selected_coord no_files (Some "p") (Some 1%Z) true
              two_profiles) = Completed
  /\ out_exit (delete_selected_coord no_files (Some "p") (Some 0%Z) true
                 malformed) = Raised AttributeError.
Proof.
  split.
  - destruct (tree_row_can_be_deleted no_files "p" two_profiles
                [Row 0 (PyStr "Home") (PyInt 0) (PyInt 64) (PyInt 0);
                 Row 1 (PyStr "Mine") (PyInt 10) (PyInt 12) (PyInt (-30))]
                None
                (Row 1 (PyStr "Mine") (PyInt 10) (PyInt 12) (PyInt (-30)))
                eq_refl eq_refl)
      as (pd & l & _ & _ & _ & H & Hall).
    + apply list_elem_of_further, list_elem_of_here.
    + change (Z.of_nat (row_iid (Row 1 (PyStr "Mine") (PyInt 10) (PyInt 12)
                                   (PyInt (-30))))) with 1%Z in H.
      rewrite H. cbn [out_exit]. rewrite (Hall eq_refl). reflexivity.
  - destruct (tree_row_can_be_deleted no_files "p" malformed
                [Row 0 (PyStr "Home") (PyInt 0) (PyInt 64) (PyInt 0)]
                (Some AttributeError)
                (Row 0 (PyStr "Home") (PyInt 0) (PyInt 64) (PyInt 0))
                eq_refl eq_refl)
      as (pd & l & Hd & Hc & _ & H & _).
    + apply list_elem_of_here.
    + change (Z.of_nat (row_iid (Row 0 (PyStr "Home") (PyInt 0) (PyInt 64)
                                   (PyInt 0)))) with 0%Z in H.
      rewrite H. cbn [out_exit row_iid].
      injection Hd as <-. injection Hc as <-. reflexivity.
Defined.

(** Property X15.  After an [add_coord] that goes through on a profile
    whose list holds dicts only, the refresh of the tree raises nothing
    and the tree has one row more: the last row carries the old length
    of the list as its identifier and shows the trimmed name and the
    three values read from the fields. *)
Theorem add_coord_then_refresh (fs : files) (p name x y z : str)
    (data pd : gmap str pyval) (l : list pyval) :
  data !! p = Some (PyDict pd) -> pd !! "coords" = Some (PyList l) ->
  Forall (fun c => Spec.is_dict c = true) l ->
  out_exit (add_coord fs (Some p) name x y z data) = Completed ->
  exists rows xv yv zv,
    _refresh_coords_tree p (out_data (add_coord fs (Some p) name x y z data))
      = (rows, None) /\
    length rows = S (length l) /\
    rows !! length l = Some (Row (length l) (PyStr (strip name)) xv yv zv) /\
    coord_value (strip x) = Some xv /\ coord_value (strip y) = Some yv /\
    coord_value (strip z) = Some zv.
Proof.
  intros Hd Hc Hl Hexit.
  destruct (add_coord_cases fs (Some p) name x y z data)
    as [[Hne _] | (p' & pd' & l' & xv & yv & zv & Hp & _ & _ & Hx & Hy & Hz
                   & Hd' & Hc' & Ho & _)]; [contradiction|].
  injection Hp as <-. rewrite Hd in Hd'. injection Hd' as <-.
  rewrite Hc in Hc'. injection Hc' as <-. rewrite Ho.
  set (c := (<["name" := PyStr (strip name)]> (<["x" := xv]>
               (<["y" := yv]> (<["z" := zv]> ∅)))) : gmap str pyval).
  assert (Hall : Forall (fun c => Spec.is_dict c = true)
                   (l ++ [PyDict c])).
  { apply Forall_app. split; [exact Hl|]. repeat constructor. }
  destruct (refresh_rows_of_dicts
              (<[p := PyDict (<["coords" := PyList (l ++ [PyDict c])]> pd)]>
                 data) p
              _ _ (lookup_insert_eq _ _ _) (lookup_insert_eq _ _ _) Hall)
    as (rows & E & Hlen & Hrows).
  exists rows, xv, yv, zv. unfold coord. fold c.
  split; [exact E|]. split; [rewrite Hlen, length_app; simpl; lia|].
  split; [|auto].
  rewrite (Hrows (length l) c); [reflexivity|].
  apply list_lookup_middle. reflexivity.
Qed.

Lemma add_coord_then_refresh_witness :
  exists rows xv yv zv,
    _refresh_coords_tree "p"
      (out_data (add_coord no_files (Some "p") " Base " "1" "-2" "3.5"
                   two_profiles)) = (rows, None) /\
    length rows = 3 /\
    rows !! 2 = Some (Row 2 (PyStr "Base") xv yv zv).
Proof.
  destruct (add_coord_then_refresh no_files "p" " Base " "1" "-2" "3.5"
              two_profiles
              (<["seed" := PyStr "1234"]>
                 (<["coords" := PyList [home; mine]]> ∅))
              [home; mine] eq_refl eq_refl)
    as (rows & xv & yv & zv & E & Hlen & Hrow & _).
  - repeat constructor.
  - reflexivity.
  - exists rows, xv, yv, zv. split; [exact E|]. split; [exact Hlen|exact Hrow].
Defined.

(** Property X16.  After the creation of a profile under a name that
    is not blank and not in use, selecting it, as [add_profile] does at
    its end, shows its trimmed name in the title, an empty seed and an
    empty tree, whatever the panel showed before, and raises nothing. *)
Theorem add_profile_then_select (fs : files) (n : str)
    (data : gmap str pyval) (shown : display) :
  nonempty (strip n) = true -> data !! strip n = None ->
  on_profile_select (Some (strip n))
    (out_data (add_profile fs (Some n) data)) shown
  = (Display ("Profile: " +:+ strip n) (PyStr "") [], None).
Proof.
  intros Hs Hd.
  assert (Hn : nonempty n = true).
  { destruct n; [discriminate Hs | reflexivity]. }
  rewrite (add_profile_creates fs n data Hn Hd). cbn [out_data].
  unfold on_profile_select, _refresh_coords_tree. cbn [Py.not_]. rewrite Hs.
  cbn [negb from_option id]. rewrite lookup_insert_eq. reflexivity.
Qed.

Lemma add_profile_then_select_witness :
  on_profile_select (Some "Nether")
    (out_data (add_profile no_files (Some " Nether ") two_profiles)) stale
  = (Display "Profile: Nether" (PyStr "") [], None).
Proof.
  apply (add_profile_then_select no_files " Nether " two_profiles stale);
    reflexivity.
Defined.



(** Property X19.  No action on seeds or coordinates creates, renames
    or deletes a profile: after [save_seed], [add_coord] and
    [delete_selected_coord] the dict has the keys it had, and after
    [add_profile] it has them all still. *)
Theorem actions_keep_profiles (fs : files) (a : action)
    (data : gmap str pyval) :
  dom data ⊆ dom (out_data (perform fs a data))
  /\ ((forall name, a <> CreateProfile name) ->
      dom (out_data (perform fs a data)) = dom data).
Proof.
  assert (K : forall p v (w : pyval), data !! p = Some v ->
              dom (<[p := w]> data) = dom data).
  { intros p v w H. apply dom_insert_lookup_L. eauto. }
  destruct a as [name|profile seed_var|profile name x y z|profile sel confirm];
    cbn [perform].
  - split; [|intros H; destruct (H name eq_refl)].
    destruct (add_profile_cases fs name data)
      as [[_ [-> _]] | (n & _ & _ & _ & ->)]; [reflexivity|].
    cbn [out_data]. rewrite dom_insert_L. apply union_subseteq_r.
  - destruct (save_seed_cases fs profile seed_var data)
      as [[_ [-> _]] | (p & pd & _ & _ & Hd & ->)]; [split; reflexivity|].
    rewrite (K _ _ _ Hd). split; reflexivity.
  - destruct (add_coord_cases fs profile name x y z data)
      as [[_ [-> _]] | (p & pd & l & xv & yv & zv & _ & _ & _ & _ & _ & _
                        & Hd & _ & -> & _)]; [split; reflexivity|].
    rewrite (K _ _ _ Hd). split; reflexivity.
  - destruct (delete_selected_coord_cases fs profile sel confirm data)
      as [[_ [-> _]] | (p & idx & pd & l & c & _ & _ & _ & _ & _ & Hd & _ & _
                        & -> & _)]; [split; reflexivity|].
    rewrite (K _ _ _ Hd). split; reflexivity.
Qed.

Lemma actions_keep_profiles_witness :
  dom (out_data (perform no_files
                   (DeleteCoordinate (Some "p") (Some 0%Z) true) two_profiles))
  = dom two_profiles.
Proof.
  apply (proj2 (actions_keep_profiles no_files
                  (DeleteCoordinate (Some "p") (Some 0%Z) true) two_profiles)).
  intros name H. discriminate H.
Defined.

(** Property X20.  Whatever the user does, deletions of profiles and
    imports included, no coordinate with the empty text as its name comes
    to be stored, provided that none is stored at the start and that none
    stands in a file that can be imported. *)
Theorem execute_keeps_names_nonempty (fs : files) (c : command)
    (data : gmap str pyval) :
  Spec.names_nonempty data ->
  (forall path doc, open_json_load fs path = ReadJson (PyDict doc) ->
     Spec.names_nonempty doc) ->
  Spec.names_nonempty (out_data (execute fs c data)).
Proof.
  intros Hd Hfiles. destruct c as [a|sel confirm|path merge]; cbn [execute].
  - apply perform_keeps_names, Hd.
  - destruct (delete_profile_cases fs sel confirm data)
      as [[_ [-> _]] | (p & v & _ & _ & _ & _ & ->)]; [exact Hd|].
    cbn [out_data]. apply map_Forall_delete, Hd.
  - unfold import_json. destruct (nonempty path); [|exact Hd].
    cbn [negb]. destruct (open_json_load fs path) as [e|v] eqn:E; [exact Hd|].
    destruct v as [| | | | | |doc]; try exact Hd. cbn [out_data].
    specialize (Hfiles path doc E).
    destruct (Py.nonempty_dict data && merge); [|exact Hfiles].
    intros k v Hk. apply lookup_union_Some_raw in Hk as [Hk|[_ Hk]].
    + apply (Hfiles k v Hk).
    + apply (Hd k v Hk).
Qed.

Lemma execute_keeps_names_nonempty_witness :
  Spec.names_nonempty
    (out_data (execute (some_files imported) (ImportJson "doc.json" true)
                 two_profiles)).
Proof.
  apply execute_keeps_names_nonempty.
  - unfold two_profiles. apply map_Forall_insert_2; [reflexivity|].
    apply map_Forall_insert_2; [reflexivity|]. apply map_Forall_empty.
  - intros path doc. unfold some_files. cbn [open_json_load].
    destruct (bool_decide (path = "list.json")); [discriminate|].
    destruct (bool_decide (path = "doc.json")); [|discriminate].
    intros H. injection H as <-. unfold imported.
    apply map_Forall_insert_2; [reflexivity|]. apply map_Forall_empty.
Defined.

(** Property X22.  With no profile selected, or with the empty name
    selected, the panel is emptied.  For a selected name that is not a
    key the panel shows the name with an empty seed and an empty tree and
    nothing is raised, and for a profile that is not a dict the title
    changes, [AttributeError] is raised and the seed and the tree stay as
    they were. *)
Theorem on_profile_select_edges (data : gmap str pyval)
    (shown : display) (p : str) :
  on_profile_select None data shown = (clear_profile_display, None)
  /\ on_profile_select (Some "") data shown = (clear_profile_display, None)
  /\ (nonempty p = true -> data !! p = None ->
      on_profile_select (Some p) data shown
      = (Display ("Profile: " +:+ p) (PyStr "") [], None))
  /\ (forall v, nonempty p = true -> data !! p = Some v ->
      Spec.is_dict v = false ->
      on_profile_select (Some p) data shown
      = (Display ("Profile: " +:+ p) (shown_seed shown) (shown_rows shown),
         Some AttributeError)).
Proof.
  split; [reflexivity|]. split; [reflexivity|].
  unfold on_profile_select, _refresh_coords_tree. cbn [Py.not_]. split.
  - intros Hp Hd. rewrite Hp. cbn [negb from_option id]. rewrite Hd.
    reflexivity.
  - intros v Hp Hd Hv. rewrite Hp. cbn [negb from_option id]. rewrite Hd.
    destruct v; try reflexivity. discriminate Hv.
Qed.

Lemma on_profile_select_edges_witness :
  on_profile_select (Some "r") two_profiles stale
    = (Display "Profile: r" (PyStr "") [], None)
  /\ on_profile_select (Some "p") (<["p" := PyList []]> two_profiles) stale
    = (Display "Profile: p" (PyStr "99")
         [Row 0 (PyStr "Old") (PyInt 1) (PyInt 2) (PyInt 3)],
       Some AttributeError).
Proof.
  split.
  - apply (proj1 (proj2 (proj2 (on_profile_select_edges two_profiles stale
                                  "r")))); reflexivity.
  - apply (proj2 (proj2 (proj2 (on_profile_select_edges
                                  (<["p" := PyList []]> two_profiles) stale
                                  "p"))) (PyList [])); reflexivity.
Defined.

(** Property X21.  Nothing is coerced to a number it does not spell:
    when a field is stored as an [int], its text is a minus sign or none
    followed by decimal digits only, of ASCII or of another script and no
    more of them than [int] reads, and the [int] is the number that these
    digits denote, negated after a minus sign; so the [int] 0 is stored
    only for a text of digits zero. *)
Theorem stored_int_is_spelled (t : str) (n : Z) :
  coord_value t = Some (PyInt n) ->
  Spec.integral_text t = true
  /\ (Z.of_nat (len (Spec.digits t)) <= int_max_str_digits)%Z
  /\ n = (if startswith_minus t then (- Spec.number (Spec.digits t))%Z
          else Spec.number (Spec.digits t))
  /\ (n = 0%Z -> all_chars Spec.is_zero (Spec.digits t) = true).
Proof.
  intros H.
  assert (Hk := coord_value_kind t _ H). unfold Spec.kind_follows in Hk.
  destruct (Spec.integral_text t) eqn:Ht; [|discriminate Hk].
  split; [reflexivity|].
  rewrite (coord_value_integral t Ht) in H.
  destruct (Z.leb_spec (Z.of_nat (len (Spec.digits t))) int_max_str_digits)
    as [Hl|Hl]; [|discriminate H].
  split; [exact Hl|]. injection H as <-. split; [reflexivity|].
  unfold Spec.integral_text in Ht. apply andb_true_iff in Ht as [_ Hall].
  intros H0. apply (number_from_zero (Spec.digits t) 0 Hall); [lia|].
  unfold Spec.number in H0. destruct (startswith_minus t); lia.
Qed.

Lemma stored_int_is_spelled_witness :
  Spec.integral_text "-000" = true
  /\ all_chars Spec.is_zero "000" = true
  /\ Spec.integral_text arabic_123 = true
  /\ 123%Z = Spec.number arabic_123.
Proof.
  destruct (stored_int_is_spelled "-000" 0 eq_refl) as (H1 & _ & _ & H4).
  destruct (stored_int_is_spelled arabic_123 123 eq_refl)
    as (H5 & _ & H7 & _).
  split; [exact H1|]. split; [apply H4; reflexivity|].
  split; [exact H5 | exact H7].
Defined.

(** Property X23.  Answering no to a confirmation changes nothing:
    whatever is selected, a deletion of a coordinate or of a profile that
    is not confirmed leaves the dict as it was and writes no file, nor
    opens one for writing. *)
Theorem unconfirmed_deletions_change_nothing (fs : files)
    (profile : option str) (sel : option Z)
    (data : gmap str pyval) :
  out_data (delete_selected_coord fs profile sel false data) = data
  /\ dumps (out_events (delete_selected_coord fs profile sel false data)) = []
  /\ out_data (delete_profile fs profile false data) = data
  /\ dumps (out_events (delete_profile fs profile false data)) = []
  /\ touched (out_events (delete_selected_coord fs profile sel false data))
     = []
  /\ touched (out_events (delete_profile fs profile false data)) = [].
Proof.
  destruct (delete_selected_coord_cases fs profile sel false data)
    as [[_ [E1 T1]] | (p & idx & pd & l & c & _ & _ & _ & Hc & _)];
    [|discriminate Hc].
  destruct (delete_profile_cases fs profile false data)
    as [[_ [E2 T2]] | (p & v & _ & _ & Hc & _)]; [|discriminate Hc].
  repeat split; try assumption; apply dumps_touched; assumption.
Qed.

(** Property X24.  The identifiers are rebuilt after a deletion: when
    a [delete_selected_coord] goes through on a profile whose list holds
    dicts only, the refreshed tree has one row less, every row carries
    its own position as its identifier, and from the deleted position on
    each row shows the coordinate that stood one place further. *)
Theorem delete_coord_then_refresh (fs : files) (p : str) (idx : Z)
    (confirm : bool) (data pd : gmap str pyval) (l : list pyval) :
  data !! p = Some (PyDict pd) -> pd !! "coords" = Some (PyList l) ->
  Forall (fun c => Spec.is_dict c = true) l ->
  out_exit (delete_selected_coord fs (Some p) (Some idx) confirm data)
    = Completed ->
  exists rows,
    _refresh_coords_tree p
      (out_data (delete_selected_coord fs (Some p) (Some idx) confirm data))
      = (rows, None) /\
    length rows = length l - 1 /\
    (forall j r, rows !! j = Some r -> row_iid r = j) /\
    (forall j c, Z.to_nat idx <= j -> l !! S j = Some (PyDict c) ->
       rows !! j = Some (Row j (default (PyStr "") (c !! "name"))
                           (default (PyStr "") (c !! "x"))
                           (default (PyStr "") (c !! "y"))
                           (default (PyStr "") (c !! "z")))).
Proof.
  intros Hd Hc Hl Hexit.
  destruct (delete_selected_coord_cases fs (Some p) (Some idx) confirm data)
    as [[Hne _] | (p' & idx' & pd' & l' & c & Hp & _ & Hi & _ & Hr & Hd' & Hc'
                   & Hl' & Ho & _)]; [contradiction|].
  injection Hp as <-. injection Hi as <-. rewrite Hd in Hd'.
  injection Hd' as <-. rewrite Hc in Hc'. injection Hc' as <-. rewrite Ho.
  destruct (refresh_rows_of_dicts
              (<[p := PyDict (<["coords" :=
                                 PyList (delete (Z.to_nat idx) l)]> pd)]>
                 data) p
              _ _ (lookup_insert_eq _ _ _) (lookup_insert_eq _ _ _)
              (Forall_delete _ _ _ Hl))
    as (rows & E & Hlen & Hrows).
  exists rows. split; [exact E|].
  split; [rewrite Hlen; apply length_delete; eauto|]. split.
  - intros j r Hj.
    assert (Hlt : j < length (delete (Z.to_nat idx) l)).
    { rewrite <- Hlen. apply (lookup_lt_Some _ _ _ Hj). }
    apply lookup_lt_is_Some in Hlt as [c' Hc'].
    assert (Hdict : Spec.is_dict c' = true).
    { apply (Forall_lookup_1 _ _ _ _
               (Forall_delete _ _ (Z.to_nat idx) Hl) Hc'). }
    destruct c' as [| | | | | |cd]; try discriminate Hdict.
    rewrite (Hrows j cd Hc') in Hj. injection Hj as <-. reflexivity.
  - intros j c' Hj Hc'. apply Hrows.
    rewrite list_lookup_delete_ge by exact Hj. exact Hc'.
Qed.

Lemma delete_coord_then_refresh_witness :
  exists rows,
    _refresh_coords_tree "p"
      (out_data (delete_selected_coord no_files (Some "p") (Some 0%Z) true
                   two_profiles)) = (rows, None) /\
    length rows = 1 /\
    rows !! 0 = Some (Row 0 (PyStr "Mine") (PyInt 10) (PyInt 12)
                        (PyInt (-30))).
Proof.
  destruct (delete_coord_then_refresh no_files "p" 0 true two_profiles
              (<["seed" := PyStr "1234"]>
                 (<["coords" := PyList [home; mine]]> ∅))
              [home; mine] eq_refl eq_refl)
    as (rows & E & Hlen & _ & Hrows).
  - repeat constructor.
  - reflexivity.
  - exists rows. split; [exact E|]. split; [exact Hlen|].
    rewrite (Hrows 0 (<["name" := PyStr "Mine"]> (<["x" := PyInt 10]>
                        (<["y" := PyInt 12]> (<["z" := PyInt (-30)]> ∅))))
               (Nat.le_refl 0) eq_refl).
    reflexivity.
Defined.

(** Property X2.  [add_profile] never overwrites a profile: every
    profile of the dict is still there and unchanged afterwards, and at
    most one key is new.  Creating the same name twice in a row is the
    same as creating it once. *)
Theorem add_profile_never_overwrites (fs : files) (name : option str)
    (data : gmap str pyval) :
  (forall k v, data !! k = Some v ->
     out_data (add_profile fs name data) !! k = Some v)
  /\ size (out_data (add_profile fs name data)) <= S (size data)
  /\ out_data (add_profile fs name (out_data (add_profile fs name data)))
     = out_data (add_profile fs name data).
Proof.
  destruct (add_profile_cases fs name data)
    as [[_ [E _]] | (n & -> & Hn & Hd & E)].
  - rewrite E. split; [auto|]. split; [lia|exact E].
  - rewrite E. cbn [out_data]. split; [|split].
    + intros k v Hk. rewrite lookup_insert_ne; [exact Hk|]. congruence.
    + rewrite (map_size_insert_None _ _ _ Hd). lia.
    + destruct (add_profile_cases fs (Some n) (<[strip n := new_profile]> data))
        as [[_ [E' _]] | (n' & Hn' & _ & Hd' & _)]; [exact E'|].
      injection Hn' as <-. rewrite lookup_insert_eq in Hd'. discriminate Hd'.
Qed.

(** Property X17.  On a selected profile of a name that is not empty
    that has its list, with a name that is not blank, [add_coord] reads
    all fields that are plain numbers, integers of no more than 4300
    digits with or without a minus sign and decimal texts with digits on
    both sides of the point, the digits being those of ASCII or of any
    other script: it appends the coordinate and saves the dict, and goes
    through if the list holds dicts only, ending on the [AttributeError]
    of its refresh if not.  An integer of more digits is refused at the
    error box "X, Y and Z must be numbers." *)
Theorem add_coord_accepts_plain_numbers (fs : files)
    (p name x y z : str) (data pd : gmap str pyval)
    (l : list pyval) :
  nonempty p = true -> nonempty (strip name) = true ->
  data !! p = Some (PyDict pd) -> pd !! "coords" = Some (PyList l) ->
  (Spec.number_text x -> Spec.number_text y -> Spec.number_text z ->
   exists xv yv zv,
     coord_value x = Some xv /\ coord_value y = Some yv /\
     coord_value z = Some zv /\
     add_coord fs (Some p) name x y z data =
       Outcome
         (<[p := PyDict (<["coords" :=
                   PyList (l ++ [coord (strip name) xv yv zv])]> pd)]> data)
         (save_data fs
            (<[p := PyDict (<["coords" :=
                      PyList (l ++ [coord (strip name) xv yv zv])]> pd)]> data)
            data_path)
         (if forallb Spec.is_dict l then Completed
          else Raised AttributeError))
  /\ (Spec.integral_text x = true ->
      (int_max_str_digits < Z.of_nat (len (Spec.digits x)))%Z ->
      add_coord fs (Some p) name x y z data =
        Outcome data [showerror "Validation" "X, Y and Z must be numbers."]
          Returned).
Proof.
  intros Hp Hn Hd Hc. split.
  - intros Hx Hy Hz.
    destruct (number_text_read x Hx) as [xv Ex].
    destruct (number_text_read y Hy) as [yv Ey].
    destruct (number_text_read z Hz) as [zv Ez].
    exists xv, yv, zv. split; [exact Ex|]. split; [exact Ey|].
    split; [exact Ez|].
    rewrite <- (strip_of_number_text x Hx) in Ex.
    rewrite <- (strip_of_number_text y Hy) in Ey.
    rewrite <- (strip_of_number_text z Hz) in Ez.
    apply (add_coord_appends fs p name x y z data pd l xv yv zv Hp Hn Ex Ey Ez
             Hd Hc).
  - intros Hx Hl. unfold add_coord. cbn [Py.not_]. rewrite Hp.
    cbn [negb from_option id]. rewrite Hn. cbn [negb].
    rewrite (strip_of_integral_text x Hx), (coord_value_integral x Hx).
    destruct (Z.leb_spec (Z.of_nat (len (Spec.digits x))) int_max_str_digits);
      [lia | reflexivity].
Qed.

Lemma add_coord_accepts_plain_numbers_witness :
  out_exit (add_coord no_files (Some "q") "Base" "-0075" "64" "-0.25"
              two_profiles) = Completed
  /\ out_exit (add_coord no_files (Some "p") "Base" "-0075" "64" "-0.25"
                 malformed) = Raised AttributeError.
Proof.
  split.
  - destruct (proj1 (add_coord_accepts_plain_numbers no_files "q" "Base"
                       "-0075" "64" "-0.25" two_profiles
                       (<["seed" := PyStr ""]> (<["coords" := PyList []]> ∅)) []
                       eq_refl eq_refl eq_refl eq_refl))
      as (xv & yv & zv & _ & _ & _ & H).
    + left. split; [reflexivity | vm_compute; discriminate].
    + left. split; [reflexivity | vm_compute; discriminate].
    + right. exists true, "0", "25". repeat split; reflexivity.
    + rewrite H. reflexivity.
  - destruct (proj1 (add_coord_accepts_plain_numbers no_files "p" "Base"
                       "-0075" "64" "-0.25" malformed
                       (<["seed" := PyStr ""]>
                          (<["coords" := PyList [home; PyInt 5]]> ∅))
                       [home; PyInt 5]
                       eq_refl eq_refl eq_refl eq_refl))
      as (xv & yv & zv & _ & _ & _ & H).
    + left. split; [reflexivity | vm_compute; discriminate].
    + left. split; [reflexivity | vm_compute; discriminate].
    + right. exists true, "0", "25". repeat split; reflexivity.
    + rewrite H. reflexivity.
Defined.

End Further.
